(** * note-glance: render cache and change notification

    A shallow embedding of [main.py] of note-glance: the watchdog handler
    ([MarkdownFileHandler]), the style loader, the HTML post-processing
    step, [convert_md_to_html] with its cache, and the two Flask views that
    touch the cache and the set of modified files.

    Python values are modelled as follows.
    - [str] is [string]; the methods used by the program are in [Module pystr].
    - the floats returned by [os.path.getmtime] and [time.time] are binary64
      floats ([float]); they are only compared and truncated.
    - the dict [html_cache] is a [gmap string (string * float)], the set
      [modified_files] a [gset string].
    - module-level globals and the operating system (files, environment,
      working directory, clock) form one [machine]; every function is a
      state transformer that either returns or raises. *)

From Stdlib Require Import ZArith Floats Strings.Ascii.
From stdpp Require Import gmap strings pretty sorting.

(** ** Python's [str] methods used by the program *)

Module pystr.

(** [s.startswith(p)] *)
Definition startswith (s p : string) : bool := String.prefix p s.

(** [s.endswith(suf)] *)
Fixpoint endswith (s suf : string) : bool :=
  String.eqb s suf ||
  match s with
  | EmptyString => false
  | String _ s' => endswith s' suf
  end.

(** [sub in s] *)
Fixpoint contains (sub s : string) : bool :=
  String.prefix sub s ||
  match s with
  | EmptyString => false
  | String _ s' => contains sub s'
  end.

(** [s.replace(old, new)]: every non-overlapping occurrence of [old],
    scanning from the left.  [skip] counts the characters of a matched
    occurrence that are still to be dropped. *)
Fixpoint replace_from (old new : string) (skip : nat) (s : string) : string :=
  match s with
  | EmptyString => EmptyString
  | String c s' =>
      match skip with
      | S k => replace_from old new k s'
      | O =>
          if String.prefix old s
          then new +:+ replace_from old new (String.length old - 1) s'
          else String c (replace_from old new O s')
      end
  end.

Fixpoint interleave (new s : string) : string :=
  match s with
  | EmptyString => EmptyString
  | String c s' => String c (new +:+ interleave new s')
  end.

Definition replace (s old new : string) : string :=
  match old with
  | EmptyString => new +:+ interleave new s
  | _ => replace_from old new O s
  end.

(** [s.find(sub)]: the index of the first occurrence, [None] for -1 *)
Fixpoint find (sub s : string) : option nat :=
  if String.prefix sub s then Some 0
  else match s with
       | EmptyString => None
       | String _ s' => S <$> find sub s'
       end.

(** The slices [s[:n]] and [s[n:]] *)
Fixpoint take (n : nat) (s : string) : string :=
  match n, s with
  | S k, String c s' => String c (take k s')
  | _, _ => EmptyString
  end.

Fixpoint drop (n : nat) (s : string) : string :=
  match n, s with
  | S k, String _ s' => drop k s'
  | _, _ => s
  end.

(** [s.split(sep)] for a one-character separator *)
Fixpoint split (sep : Ascii.ascii) (s : string) : list string :=
  match s with
  | EmptyString => [EmptyString]
  | String c s' =>
      if Ascii.eqb c sep then EmptyString :: split sep s'
      else match split sep s' with
           | h :: t => String c h :: t
           | [] => [String c EmptyString]
           end
  end.

(** [sep.join(l)] *)
Definition join (sep : string) (l : list string) : string := String.concat sep l.

(** [str(n)] for an [int] *)
Definition str_of_int (n : Z) : string := pretty n.

(** [int(x)] for a float: truncation towards zero; infinities and NaN
    raise ([None]). *)
Definition int_of_float (x : float) : option Z :=
  match Prim2SF x with
  | S754_zero _ => Some 0%Z
  | S754_finite sgn mant e =>
      let v := if (0 <=? e)%Z then (Z.pos mant * 2 ^ e)%Z
               else (Z.pos mant / 2 ^ (- e))%Z in
      Some (if sgn then (- v)%Z else v)
  | S754_infinity _ => None
  | S754_nan => None
  end.

(** Truthiness of a [str] and of an optional [str] ([None] and [''] are
    false). *)
Definition truthy (s : string) : bool := negb (String.eqb s "").

Definition truthy_opt (o : option string) : bool :=
  match o with
  | Some s => truthy s
  | None => false
  end.

End pystr.

(** ** [os.path] on POSIX, after CPython's [posixpath] *)

Module posixpath.

Definition sep : Ascii.ascii := "/"%char.

Definition isabs (p : string) : bool := pystr.startswith p "/".

(** [os.path.join(a, b)] *)
Definition join (a b : string) : string :=
  if pystr.startswith b "/" then b
  else if negb (pystr.truthy a) || pystr.endswith a "/" then a +:+ b
  else a +:+ "/" +:+ b.

(** [os.path.basename(p)]: the text after the last slash *)
Definition basename (p : string) : string :=
  List.last (pystr.split sep p) "".

(** One turn of the loop of [normpath] over the components. *)
Definition normpath_step (initial_slashes : nat) (new_comps : list string)
    (comp : string) : list string :=
  if String.eqb comp "" || String.eqb comp "." then new_comps
  else if negb (String.eqb comp "..")
          || (Nat.eqb initial_slashes 0 && bool_decide (new_comps = []))
          || (negb (bool_decide (new_comps = []))
              && String.eqb (List.last new_comps "") "..")
  then (new_comps ++ [comp])%list
  else List.removelast new_comps.

Definition normpath (path : string) : string :=
  if String.eqb path "" then "."
  else
    let initial_slashes :=
      if pystr.startswith path "/" then
        if pystr.startswith path "//" && negb (pystr.startswith path "///")
        then 2 else 1
      else 0 in
    let comps := fold_left (normpath_step initial_slashes)
                           (pystr.split sep path) [] in
    let path' := pystr.join "/" comps in
    let path' := match initial_slashes with
                 | 0 => path'
                 | 1 => "/" +:+ path'
                 | _ => "//" +:+ path'
                 end in
    if pystr.truthy path' then path' else ".".

(** [os.path.abspath(path)] in working directory [cwd] *)
Definition abspath (cwd path : string) : string :=
  normpath (if isabs path then path else join cwd path).

Fixpoint common_prefix_len (a b : list string) : nat :=
  match a, b with
  | x :: a', y :: b' => if String.eqb x y then S (common_prefix_len a' b') else 0
  | _, _ => 0
  end.

(** [os.path.relpath(path, start)]; raises [ValueError] ([None]) on an
    empty [path]. *)
Definition relpath (cwd path start : string) : option string :=
  if negb (pystr.truthy path) then None
  else
    let start_list := filter (λ x, pystr.truthy x = true)
                             (pystr.split sep (abspath cwd start)) in
    let path_list := filter (λ x, pystr.truthy x = true)
                            (pystr.split sep (abspath cwd path)) in
    let i := common_prefix_len start_list path_list in
    let rel_list :=
      (replicate (length start_list - i) ".." ++ drop i path_list)%list in
    match rel_list with
    | [] => Some "."
    | c :: cs => Some (fold_left join cs c)
    end.

End posixpath.

(** ** The machine: Python globals and the operating system *)

(** A filesystem entry.  [data = None] is a file whose [read()] raises
    (no read permission, or bytes that are not UTF-8). *)
Inductive node :=
| Dir (mtime : float)
| File (mtime : float) (data : option string).

Definition node_mtime (n : node) : float :=
  match n with
  | Dir t => t
  | File t _ => t
  end.

(** What the process sees of the operating system.  [clock] is the value
    [time.time()] returns during the call under consideration. *)
Record world := mk_world {
  fs : gmap string node;
  environ : gmap string string;
  cwd : string;
  clock : float
}.

(** The dict [config]. *)
Record config_t := mk_config {
  notes_dir : string;
  pandoc_flags : list string;
  temp_dir : string;
  default_extensions : list string;
  css_file : option string;
  refresh_interval : Z
}.

(** The module-level globals of [main.py]. *)
Record globals := mk_globals {
  config : config_t;
  html_cache : gmap string (string * float);
  modified_files : gset string;
  css_content : option string
}.

Record machine := mk_machine {
  py : globals;
  sys : world
}.

Definition with_fs (f : gmap string node) (w : world) : world :=
  mk_world f (environ w) (cwd w) (clock w).

Definition with_environ (e : gmap string string) (w : world) : world :=
  mk_world (fs w) e (cwd w) (clock w).

Definition with_pandoc_flags (fl : list string) (g : globals) : globals :=
  mk_globals
    (mk_config (notes_dir (config g)) fl (temp_dir (config g))
               (default_extensions (config g)) (css_file (config g))
               (refresh_interval (config g)))
    (html_cache g) (modified_files g) (css_content g).

Definition with_html_cache (c : gmap string (string * float)) (g : globals) : globals :=
  mk_globals (config g) c (modified_files g) (css_content g).

Definition with_modified_files (s : gset string) (g : globals) : globals :=
  mk_globals (config g) (html_cache g) s (css_content g).

Definition with_css_content (c : option string) (g : globals) : globals :=
  mk_globals (config g) (html_cache g) (modified_files g) c.

(** The initial value of [config] in the source. *)
Definition default_config (home tmp : string) : config_t :=
  mk_config (posixpath.join home "notes") [] tmp [".md"; ".markdown"; ".txt"]
            None 500.

(** ** Computations that return or raise *)

Inductive exn :=
| FileNotFoundError (filename : string)
| OSError (filename : string)
| CalledProcessError (returncode : Z) (cmd : list string)
| ValueError
| OtherException (name : string).

Inductive result (A : Type) :=
| Ret (a : A)
| Raise (e : exn).
Arguments Ret {A} a.
Arguments Raise {A} e.

Definition M (A : Type) : Type := machine → result A * machine.

Definition ret {A} (a : A) : M A := λ m, (Ret a, m).

Definition raise {A} (e : exn) : M A := λ m, (Raise e, m).

Definition bind {A B} (c : M A) (k : A → M B) : M B :=
  λ m, match c m with
       | (Ret a, m') => k a m'
       | (Raise e, m') => (Raise e, m')
       end.

Notation "'let*' x ':=' c 'in' k" := (bind c (λ x, k))
  (at level 10, x name, c at level 100, k at level 200).

Definition get : M machine := λ m, (Ret m, m).

Definition modify_py (f : globals → globals) : M unit :=
  λ m, (Ret tt, mk_machine (f (py m)) (sys m)).

Definition modify_sys (f : world → world) : M unit :=
  λ m, (Ret tt, mk_machine (py m) (f (sys m))).

(** [try: body except ...: handler]; [handler e = None] when no [except]
    clause matches [e]. *)
Definition try_except {A} (body : M A) (handler : exn → option (M A)) : M A :=
  λ m, match body m with
       | (Ret a, m') => (Ret a, m')
       | (Raise e, m') =>
           match handler e with
           | Some h => h m'
           | None => (Raise e, m')
           end
       end.

(** *** Operating-system primitives *)

(** The kernel resolves a path name against the working directory; [.],
    [..] and repeated slashes are resolved on the text of the name (there
    are no symbolic links in this model).  [fs] is keyed by resolved names. *)
Definition resolve (w : world) (p : string) : string :=
  posixpath.abspath (cwd w) p.

Definition stat (w : world) (p : string) : option node := fs w !! resolve w p.

Definition os_path_exists (w : world) (p : string) : bool :=
  bool_decide (is_Some (stat w p)).

Definition os_path_isfile (w : world) (p : string) : bool :=
  match stat w p with
  | Some (File _ _) => true
  | _ => false
  end.

Definition os_path_isdir (w : world) (p : string) : bool :=
  match stat w p with
  | Some (Dir _) => true
  | _ => false
  end.

Definition os_path_getmtime (p : string) : M float :=
  let* m := get in
  match stat (sys m) p with
  | Some n => ret (node_mtime n)
  | None => raise (FileNotFoundError p)
  end.

(** [with open(p, "r", encoding="utf-8") as f: f.read()] *)
Definition read_text (p : string) : M string :=
  let* m := get in
  match stat (sys m) p with
  | Some (File _ (Some s)) => ret s
  | Some _ => raise (OSError p)
  | None => raise (FileNotFoundError p)
  end.

(** [with open(p, "w", encoding="utf-8") as f: f.write(s)] *)
Definition write_text (p s : string) : M unit :=
  modify_sys (λ w, with_fs (<[resolve w p := File (clock w) (Some s)]> (fs w)) w).

Definition os_path_abspath (p : string) : M string :=
  let* m := get in ret (posixpath.abspath (cwd (sys m)) p).

(** ** The program *)

(** How a child process ends: it exits with a return code, leaving the
    filesystem as [fs'], or the executable is not found. *)
Inductive completed :=
| Exited (returncode : Z) (fs' : gmap string node)
| ProgramNotFound.

(** A watchdog event. *)
Record event := mk_event {
  is_directory : bool;
  src_path : string
}.

(** What a Flask view answers. *)
Inductive response :=
| DirectoryListing (dir : string)
| Abort (status : Z)
| SendFile (path : string).

Definition nl : string := String "010"%char EmptyString.

(** The f-string [refresh_script] of [inject_css_and_refresh]. *)
Definition refresh_script (rel_path : string) (interval : Z) : string :=
  "
        <script>
        (function() {
            // Function to check if the file has been modified
            function checkForChanges() {
                fetch('/api/check_modified/" +:+ rel_path +:+ "')
                    .then(response => response.json())
                    .then(data => {
                        if (data.modified) {
                            console.log('File has been modified, refreshing...');
                            window.location.reload();
                        } else {
                            setTimeout(checkForChanges, " +:+ pystr.str_of_int interval +:+ ");
                        }
                    })
                    .catch(error => {
                        console.error('Error checking for file changes:', error);
                        setTimeout(checkForChanges, " +:+ pystr.str_of_int interval +:+ ");
                    });
            }
            
            // Start checking for changes
            setTimeout(checkForChanges, " +:+ pystr.str_of_int interval +:+ ");
        })();
        </script>
        ".

(** The string transformation in the middle of [inject_css_and_refresh]:
    from the text read from the HTML file, the global [css_content] and the
    refresh script to the text written back. *)
Definition inject (content : string) (css : option string) (script : string) : string :=
  let content :=
    match css with
    | Some css_text =>
        if pystr.truthy css_text then
          let css_style := "<style>" +:+ nl +:+ css_text +:+ nl +:+ "</style>" in
          if pystr.contains "</head>" content
          then pystr.replace content "</head>" (css_style +:+ "</head>")
          else css_style +:+ nl +:+ content
        else content
    | None => content
    end in
  if pystr.contains "</body>" content
  then pystr.replace content "</body>" (script +:+ "</body>")
  else content +:+ script.

Definition when (b : bool) (c : M unit) : M unit := if b then c else ret tt.

Section Program.

(** The collaborators outside [main.py]: the child process started by
    [subprocess.run], python-dotenv's [load_dotenv(override=True)] (the new
    [os.environ], or an exception), [shlex.split] ([None] is its
    [ValueError]), and the note resolver [find_note], which only reads
    [config] and the filesystem. *)
Variable run : list string → world → completed.
Variable load_dotenv : world → result (gmap string string).
Variable shlex_split : string → option (list string).
Variable find_note : config_t → world → string → option string.

(** [subprocess.run(cmd, check=True)] *)
Definition subprocess_run (cmd : list string) : M unit :=
  let* m := get in
  match run cmd (sys m) with
  | Exited code fs' =>
      let* _ := modify_sys (with_fs fs') in
      if (code =? 0)%Z then ret tt else raise (CalledProcessError code cmd)
  | ProgramNotFound => raise (FileNotFoundError (List.hd "" cmd))
  end.

Definition get_file_modification_time (file_path : string) : M float :=
  os_path_getmtime file_path.

Definition watched_extension (cfg : config_t) (file_path : string) : bool :=
  existsb (pystr.endswith file_path) (default_extensions cfg).

Definition load_css_content : M unit :=
  let* m := get in
  match css_file (config (py m)) with
  | Some f =>
      if pystr.truthy f && os_path_isfile (sys m) f then
        try_except
          (let* text := read_text f in modify_py (with_css_content (Some text)))
          (λ _, Some (modify_py (with_css_content None)))
      else modify_py (with_css_content None)
  | None => modify_py (with_css_content None)
  end.

Definition parse_env_pandoc_flags : M (list string) :=
  let* m := get in
  match environ (sys m) !! "PANDOC_FLAGS" with
  | Some env_flags =>
      if pystr.truthy env_flags then
        match shlex_split env_flags with
        | Some flags => ret flags
        | None => raise ValueError
        end
      else ret (pandoc_flags (config (py m)))
  | None => ret (pandoc_flags (config (py m)))
  end.

(** [if file_path in html_cache: del html_cache[file_path]] *)
Definition drop_cache_entry (file_path : string) : M unit :=
  let* m := get in
  match html_cache (py m) !! file_path with
  | Some _ => modify_py (λ g, with_html_cache (delete file_path (html_cache g)) g)
  | None => ret tt
  end.

Definition html_cache_clear : M unit := modify_py (with_html_cache ∅).

(** The test of line 73: [config["css_file"]] is set and names the same
    absolute path as [file_path]. *)
Definition is_css_file (m : machine) (file_path : string) : bool :=
  match css_file (config (py m)) with
  | Some f => pystr.truthy f
              && String.eqb (posixpath.abspath (cwd (sys m)) file_path)
                            (posixpath.abspath (cwd (sys m)) f)
  | None => false
  end.

(** [MarkdownFileHandler.on_modified] *)
Definition on_modified (ev : event) : M unit :=
  when (negb (is_directory ev))
    (let file_path := src_path ev in
     let* m := get in
     let* _ :=
       when (watched_extension (config (py m)) file_path)
         (let* abs_path := os_path_abspath file_path in
          let* _ := modify_py (λ g, with_modified_files ({[abs_path]} ∪ modified_files g) g) in
          drop_cache_entry file_path) in
     let* m := get in
     let* _ :=
       when (is_css_file m file_path)
         (let* _ := load_css_content in html_cache_clear) in
     when (String.eqb (posixpath.basename file_path) ".env")
       (let* m := get in
        let* _ := match load_dotenv (sys m) with
                  | Ret env' => modify_sys (with_environ env')
                  | Raise e => raise e
                  end in
        let* flags := parse_env_pandoc_flags in
        let* _ := modify_py (with_pandoc_flags flags) in
        html_cache_clear)).

(** [MarkdownFileHandler.on_created]: it only logs. *)
Definition on_created (ev : event) : M unit := ret tt.

(** [MarkdownFileHandler.on_deleted] *)
Definition on_deleted (ev : event) : M unit :=
  when (negb (is_directory ev))
    (let file_path := src_path ev in
     let* m := get in
     when (watched_extension (config (py m)) file_path)
       (drop_cache_entry file_path)).

(** [inject_css_and_refresh]: every exception is caught and logged. *)
Definition inject_css_and_refresh (html_path md_path : string) : M unit :=
  try_except
    (let* content := read_text html_path in
     let* m := get in
     let* rel_path :=
       match posixpath.relpath (cwd (sys m)) md_path (notes_dir (config (py m))) with
       | Some r => ret r
       | None => raise ValueError
       end in
     let rel_path := pystr.replace rel_path "/" "/" in
     let script := refresh_script rel_path (refresh_interval (config (py m))) in
     write_text html_path (inject content (css_content (py m)) script))
    (λ _, Some (ret tt)).

(** Lines 254-261 of [convert_md_to_html]: [Some html_path] when the
    function returns the cached artifact there, [None] when control
    falls through to the conversion. *)
Definition cached_html (md_path : string) : M (option string) :=
  let* m := get in
  match html_cache (py m) !! md_path with
  | Some (html_path, mod_time) =>
      let* current_mod_time := get_file_modification_time md_path in
      if (current_mod_time <=? mod_time)%float && os_path_exists (sys m) html_path
      then ret (Some html_path)
      else ret None
  | None => ret None
  end.

(** The output path chosen at lines 264-266. *)
Definition output_path (cfg : config_t) (md_path : string) (now : Z) : string :=
  posixpath.join (temp_dir cfg)
    (posixpath.basename md_path +:+ "_" +:+ pystr.str_of_int now +:+ ".html").

Definition pandoc_cmd (cfg : config_t) (html_path md_path : string) : list string :=
  ["pandoc"] ++ pandoc_flags cfg ++ ["-o"; html_path; md_path].

(** Lines 263-290 of [convert_md_to_html]: the conversion. *)
Definition render_html (md_path : string) : M (option string) :=
  let* m := get in
  let* now := match pystr.int_of_float (clock (sys m)) with
              | Some z => ret z
              | None => raise ValueError
              end in
  let html_path := output_path (config (py m)) md_path now in
  let cmd := pandoc_cmd (config (py m)) html_path md_path in
  try_except
    (let* _ := subprocess_run cmd in
     let* _ := inject_css_and_refresh html_path md_path in
     let* mod_time := get_file_modification_time md_path in
     let* _ := modify_py (λ g, with_html_cache
                                 (<[md_path := (html_path, mod_time)]> (html_cache g)) g) in
     let* abs_path := os_path_abspath md_path in
     let* m' := get in
     let* _ := when (bool_decide (abs_path ∈ modified_files (py m')))
                 (modify_py (λ g, with_modified_files (modified_files g ∖ {[abs_path]}) g)) in
     ret (Some html_path))
    (λ e, match e with
          | CalledProcessError _ _ => Some (ret None)
          | _ => None
          end).

Definition convert_md_to_html (md_path : string) : M (option string) :=
  let* cached := cached_html md_path in
  match cached with
  | Some html_path => ret (Some html_path)
  | None => render_html md_path
  end.

(** [check_modified]: the value of ["modified"] in the JSON answer. *)
Definition check_modified (path : string) : M bool :=
  let* m := get in
  let full_path := posixpath.join (notes_dir (config (py m))) path in
  let* abs_path := os_path_abspath full_path in
  ret (bool_decide (abs_path ∈ modified_files (py m))).

(** [serve_note] *)
Definition serve_note (path : string) : M response :=
  let* m := get in
  if negb (pystr.truthy path) then ret (DirectoryListing (notes_dir (config (py m))))
  else
    let dir_path := posixpath.join (notes_dir (config (py m))) path in
    if os_path_isdir (sys m) dir_path then ret (DirectoryListing dir_path)
    else
      let note := find_note (config (py m)) (sys m) path in
      if negb (pystr.truthy_opt note) then ret (Abort 404)
      else
        let note_path := default "" note in
        let* html := convert_md_to_html note_path in
        if negb (pystr.truthy_opt html) then ret (Abort 500)
        else ret (SendFile (default "" html)).

End Program.

(** ** Vocabulary of the properties *)

(** The dirty test on a source path: the membership test that
    [check_modified] and the conversion both make, on the absolute form of
    the path. *)
Definition is_dirty (identity : string) (m : machine) : bool :=
  bool_decide (posixpath.abspath (cwd (sys m)) identity ∈ modified_files (py m)).

(** The [<style>] element built from the loaded style sheet. *)
Definition css_style (css_text : string) : string :=
  "<style>" +:+ nl +:+ css_text +:+ nl +:+ "</style>".

(** ** Sample collaborators and machines, for closed examples *)

Module Sample.

(** The value following ["-o"] on a command line. *)
Fixpoint output_of (cmd : list string) : string :=
  match cmd with
  | a :: rest =>
      if String.eqb a "-o" then List.hd "" rest else output_of rest
  | [] => ""
  end.

(** A converter that succeeds and writes a fixed document. *)
Definition pandoc_ok (cmd : list string) (w : world) : completed :=
  Exited 0 (<[resolve w (output_of cmd) := File (clock w) (Some "<p>note</p>")]> (fs w)).

(** A converter that exits with status 1 and writes nothing. *)
Definition pandoc_fails (cmd : list string) (w : world) : completed :=
  Exited 1 (fs w).

(** A [.env] loader that finds [PANDOC_FLAGS] set to [flags]. *)
Definition dotenv_sets (flags : string) (w : world) : result (gmap string string) :=
  Ret (<["PANDOC_FLAGS" := flags]> (environ w)).

(** A splitter on blanks that rejects any text holding a quote. *)
Definition split_words (s : string) : option (list string) :=
  if pystr.contains "'" s then None else Some (String.words s).

(** A resolver that only tries the direct path. *)
Definition direct_note (cfg : config_t) (w : world) (path : string) : option string :=
  let full_path := posixpath.join (notes_dir cfg) path in
  if os_path_isfile w full_path then Some full_path else None.

Definition cfg0 : config_t :=
  mk_config "/notes" [] "/tmp" [".md"; ".markdown"; ".txt"] (Some "/etc/style.css") 500.

Definition files0 : gmap string node :=
  <["/notes" := Dir 50]>
  (<["/notes/a.md" := File 100 (Some "# A")]>
  (<["/notes/x" := Dir 50]>
  (<["/notes/x/a.md" := File 100 (Some "# X")]>
  (<["/notes/y" := Dir 50]>
  (<["/notes/y/a.md" := File 100 (Some "# Y")]>
  (<["/notes/sub" := Dir 50]>
  (<["/etc/style.css" := File 60 None]>
  (<["/tmp/a.html" := File 110 (Some "<p>old</p>")]> ∅)))))))).

Definition world0 : world := mk_world files0 ∅ "/" 1700000000.25.

(** Nothing cached, nothing modified, a style sheet loaded. *)
Definition fresh : machine :=
  mk_machine (mk_globals cfg0 ∅ ∅ (Some "body{}")) world0.

(** [/notes/a.md] cached (and valid) with artifact [/tmp/a.html]. *)
Definition cached : machine :=
  mk_machine
    (mk_globals cfg0 (<["/notes/a.md" := ("/tmp/a.html", 100%float)]> ∅) ∅ (Some "body{}"))
    world0.

(** As [cached], and [/notes/a.md] is in the modified set. *)
Definition cached_dirty : machine :=
  mk_machine
    (mk_globals cfg0 (<["/notes/a.md" := ("/tmp/a.html", 100%float)]> ∅)
                {["/notes/a.md"]} (Some "body{}"))
    world0.

(** As [fresh], and [/notes/a.md] is in the modified set. *)
Definition dirty : machine :=
  mk_machine (mk_globals cfg0 ∅ {["/notes/a.md"]} (Some "body{}")) world0.

(** The same machine a little later. *)
Definition at_time (t : float) (m : machine) : machine :=
  mk_machine (py m) (mk_world (fs (sys m)) (environ (sys m)) (cwd (sys m)) t).

End Sample.

(** ** More of [os.path] *)

Module posixpath_more.

(** [s.rfind(c)] for one character: the last index, -1 when there is none.
    [i] is the index of the head of [s], [last] the last match so far. *)
Fixpoint rfind_from (c : Ascii.ascii) (s : string) (i last : Z) : Z :=
  match s with
  | EmptyString => last
  | String a s' => rfind_from c s' (i + 1) (if Ascii.eqb a c then i else last)
  end.

Definition rfind (c : Ascii.ascii) (s : string) : Z := rfind_from c s 0 (-1).

(** The loop of [genericpath._splitext] over [p[sepIndex+1:dotIndex]]: it
    stops at the first character that is not a dot. *)
Fixpoint has_non_dot (s : string) : bool :=
  match s with
  | EmptyString => false
  | String a s' => if Ascii.eqb a "."%char then has_non_dot s' else true
  end.

(** [os.path.splitext(p)] *)
Definition splitext (p : string) : string * string :=
  let sepIndex := rfind "/"%char p in
  let dotIndex := rfind "."%char p in
  if (sepIndex <? dotIndex)%Z
     && has_non_dot (pystr.take (Z.to_nat (dotIndex - (sepIndex + 1)))
                       (pystr.drop (Z.to_nat (sepIndex + 1)) p))
  then (pystr.take (Z.to_nat dotIndex) p, pystr.drop (Z.to_nat dotIndex) p)
  else (p, "").

(** [s.rstrip("/")] *)
Fixpoint rstrip_sep (s : string) : string :=
  match s with
  | EmptyString => EmptyString
  | String a s' =>
      match rstrip_sep s' with
      | EmptyString => if Ascii.eqb a "/"%char then EmptyString else String a EmptyString
      | rest => String a rest
      end
  end.

(** [head == sep * len(head)] *)
Fixpoint all_sep (s : string) : bool :=
  match s with
  | EmptyString => true
  | String a s' => Ascii.eqb a "/"%char && all_sep s'
  end.

(** [os.path.dirname(p)] *)
Definition dirname (p : string) : string :=
  let i := (rfind "/"%char p + 1)%Z in
  let head := pystr.take (Z.to_nat i) p in
  if pystr.truthy head && negb (all_sep head) then rstrip_sep head else head.

End posixpath_more.

(** ** The resolver and the watcher set-up *)

Section Resolver.

(** [os.walk(top)] as the sequence of pairs (root, files) it yields; the
    order, and the order of the names in [files], is the operating
    system's. *)
Variable os_walk : world → string → list (string * list string).

(** The loop of lines 133-136: the first default extension that makes an
    existing file. *)
Fixpoint first_with_extension (w : world) (full_path : string)
    (exts : list string) : option string :=
  match exts with
  | [] => None
  | ext :: rest =>
      let test_path := full_path +:+ ext in
      if os_path_isfile w test_path then Some test_path
      else first_with_extension w full_path rest
  end.

(** The inner loop of lines 140-143 over the files of one directory. *)
Fixpoint first_named (cfg : config_t) (note_path root : string)
    (files : list string) : option string :=
  match files with
  | [] => None
  | filename :: rest =>
      let '(name, ext) := posixpath_more.splitext filename in
      if bool_decide (ext ∈ default_extensions cfg) && String.eqb name note_path
      then Some (posixpath.join root filename)
      else first_named cfg note_path root rest
  end.

(** The outer loop of lines 139-143. *)
Fixpoint first_in_walk (cfg : config_t) (note_path : string)
    (walk : list (string * list string)) : option string :=
  match walk with
  | [] => None
  | (root, files) :: rest =>
      match first_named cfg note_path root files with
      | Some found => Some found
      | None => first_in_walk cfg note_path rest
      end
  end.

(** [find_note] *)
Definition find_note (cfg : config_t) (w : world) (note_path : string) : option string :=
  let full_path := posixpath.join (notes_dir cfg) note_path in
  let direct :=
    if os_path_isfile w full_path
       && bool_decide ((posixpath_more.splitext full_path).2 ∈ default_extensions cfg)
    then Some full_path else None in
  match direct with
  | Some found => Some found
  | None =>
      let with_ext :=
        if negb (pystr.truthy (posixpath_more.splitext full_path).2)
        then first_with_extension w full_path (default_extensions cfg)
        else None in
      match with_ext with
      | Some found => Some found
      | None => first_in_walk cfg note_path (os_walk w (notes_dir cfg))
      end
  end.

End Resolver.

(** The loop of lines 743-750 of [find_dotenv_file], with [n] turns left. *)
Fixpoint dotenv_in_parents (w : world) (n : nat) (current_dir : string) : string :=
  match n with
  | O => ".env"
  | S k =>
      let parent_dir := posixpath_more.dirname current_dir in
      if String.eqb parent_dir current_dir then ".env"
      else
        let env_path := posixpath.join parent_dir ".env" in
        if os_path_isfile w env_path then env_path
        else dotenv_in_parents w k parent_dir
  end.

(** [find_dotenv_file] *)
Definition find_dotenv_file (w : world) : string :=
  let current_dir := posixpath.abspath (cwd w) (cwd w) in
  let env_path := posixpath.join current_dir ".env" in
  if os_path_isfile w env_path then env_path
  else dotenv_in_parents w 3 current_dir.

(** [start_file_watcher]: the calls of [observer.schedule] it makes, in
    order, each with its directory and its [recursive] flag. *)
Definition start_file_watcher (cfg : config_t) (w : world) : list (string * bool) :=
  let css_dir :=
    if pystr.truthy_opt (css_file cfg)
    then Some (posixpath_more.dirname (posixpath.abspath (cwd w) (default "" (css_file cfg))))
    else None in
  let env_file := find_dotenv_file w in
  let env_dir := posixpath_more.dirname (posixpath.abspath (cwd w) env_file) in
  [(notes_dir cfg, true)]
  ++ match css_dir with
     | Some d => if negb (String.eqb d (notes_dir cfg)) then [(d, false)] else []
     | None => []
     end
  ++ (if bool_decide (Some env_dir ∉ [Some (notes_dir cfg); css_dir])
      then [(env_dir, false)] else []).

(** ** The order of a directory listing *)

Module listing.

(** An entry of [items] in [generate_directory_listing]. *)
Record item := mk_item {
  name : string;
  path : string;
  is_dir : bool;
  title : string;
  mod_time : float;
  mod_time_str : string
}.

(** [list.sort(key=...)] is a stable sort: every element goes after the
    elements already placed that are not greater.  [lt] is [<] on keys. *)
Fixpoint insert_by {A} (lt : A → A → bool) (x : A) (l : list A) : list A :=
  match l with
  | [] => [x]
  | y :: l' => if lt x y then x :: y :: l' else y :: insert_by lt x l'
  end.

Definition sort_by {A} (lt : A → A → bool) (l : list A) : list A :=
  fold_left (λ acc x, insert_by lt x acc) l [].

(** [<] on the key tuples [(not x["is_dir"], key(x))]: the first
    components decide when they differ ([False < True]), the second
    otherwise. *)
Definition key_lt {K} (lt : K → K → bool) (key : item → K) (x y : item) : bool :=
  let a := negb (is_dir x) in
  let b := negb (is_dir y) in
  if Bool.eqb a b then lt (key x) (key y) else negb a && b.

Section Listing.

(** [str.lower] *)
Variable lower : string → string.

(** Lines 387-393: the sort chosen by the [sort] query parameter. *)
Definition sort_items (sort_param : string) (items : list item) : list item :=
  if String.eqb sort_param "name"
  then sort_by (key_lt String.ltb (λ x, lower (name x))) items
  else if String.eqb sort_param "title"
  then sort_by (key_lt String.ltb (λ x, lower (title x))) items
  else if String.eqb sort_param "modified"
  then sort_by (key_lt PrimFloat.ltb mod_time) items
  else items.

(** Lines 395-406: the direction chosen by the [dir] query parameter. *)
Definition apply_direction (sort_dir : string) (items : list item) : list item :=
  match items with
  | first :: _ =>
      if String.eqb sort_dir "desc" && negb (String.eqb (name first) "..")
      then
        let '(parent_dir, items) :=
          if String.eqb (name first) ".." then (Some first, List.tl items)
          else (None, items) in
        let items := reverse items in
        match parent_dir with
        | Some p => p :: items
        | None => items
        end
      else items
  | [] => items
  end.

Definition arrange (sort_param sort_dir : string) (items : list item) : list item :=
  apply_direction sort_dir (sort_items sort_param items).

End Listing.

(** No inversion between neighbours. *)
Definition in_order {A} (lt : A → A → bool) : list A → Prop :=
  Sorted (λ x y, lt y x = false).

(** Directories before files. *)
Definition dirs_first (l : list item) : Prop :=
  ∃ dirs files, l = dirs ++ files ∧
    Forall (λ x, is_dir x = true) dirs ∧ Forall (λ x, is_dir x = false) files.

End listing.

(** ** More sample collaborators and machines *)

Module Tour.

(** A converter whose executable is not installed. *)
Definition pandoc_missing (cmd : list string) (w : world) : completed :=
  ProgramNotFound.

(** A resolver that answers with the requested path under the notes
    directory, whether or not it exists. *)
Definition any_note (cfg : config_t) (w : world) (path : string) : option string :=
  Some (posixpath.join (notes_dir cfg) path).

(** An enumeration of the sample notes directory. *)
Definition walk0 (w : world) (top : string) : list (string * list string) :=
  [("/notes", ["a.md"]); ("/notes/x", ["a.md"; "b.txt"]); ("/notes/y", ["a.md"])].

(** [/notes/gone.md] is cached, and its source file is gone. *)
Definition vanished : machine :=
  mk_machine
    (mk_globals Sample.cfg0
       (<["/notes/gone.md" := ("/tmp/a.html", 100%float)]> ∅) ∅ (Some "body{}"))
    Sample.world0.

(** The items of a listing of a subdirectory, in the order of [os.listdir]. *)
Definition items0 : list listing.item :=
  [ listing.mk_item ".." "/" true "Parent Directory" 0 "";
    listing.mk_item "b.md" "/sub/b.md" false "Beta" 120 "1970-01-01 00:02:00";
    listing.mk_item "zed" "/sub/zed" true "zed" 90 "1970-01-01 00:01:30";
    listing.mk_item "a.md" "/sub/a.md" false "Alpha" 100 "1970-01-01 00:01:40" ].

End Tour.

(** * Properties *)

(** ** The path and string functions on sample inputs *)

Example normpath_dotdot : posixpath.normpath "/notes/sub/../a.md" = "/notes/a.md".
Proof. reflexivity. Qed.

Example normpath_slashes : posixpath.normpath "//notes///x/./a.md" = "//notes/x/a.md".
Proof. reflexivity. Qed.

Example abspath_relative : posixpath.abspath "/home/u" "notes/../a.md" = "/home/u/a.md".
Proof. reflexivity. Qed.

Example relpath_below :
  posixpath.relpath "/" "/notes/sub/a.md" "/notes" = Some "sub/a.md".
Proof. reflexivity. Qed.

Example relpath_outside :
  posixpath.relpath "/" "/other/a.md" "/notes/x" = Some "../../other/a.md".
Proof. reflexivity. Qed.

Example basename_path : posixpath.basename "/notes/sub/a.md" = "a.md".
Proof. reflexivity. Qed.

Example replace_all :
  pystr.replace "a</body>b</body>" "</body>" "S</body>" = "aS</body>bS</body>".
Proof. reflexivity. Qed.

Example replace_empty_old : pystr.replace "abc" "" "-" = "-a-b-c-".
Proof. reflexivity. Qed.

Example int_of_time : pystr.int_of_float 1700000000.75 = Some 1700000000%Z.
Proof. reflexivity. Qed.

Example inject_standalone_page :
  inject "<html><head></head><body>x</body></html>" (Some "b{}") "S" =
    "<html><head><style>" +:+ nl +:+ "b{}" +:+ nl +:+
    "</style></head><body>xS</body></html>".
Proof. reflexivity. Qed.

Example inject_fragment :
  inject "<p>x</p>" (Some "b{}") "S" =
    "<style>" +:+ nl +:+ "b{}" +:+ nl +:+ "</style>" +:+ nl +:+ "<p>x</p>S".
Proof. reflexivity. Qed.

Example inject_without_style : inject "<p>x</p>" None "S" = "<p>x</p>S".
Proof. reflexivity. Qed.

(** ** Occurrences of a marker and [str.replace] *)

Section StringFacts.

Implicit Types old new sub s : string.

Lemma app_cons c s1 s2 : String c s1 +:+ s2 = String c (s1 +:+ s2).
Proof. reflexivity. Qed.

Lemma app_empty s : "" +:+ s = s.
Proof. reflexivity. Qed.

Lemma prefix_split old s :
  String.prefix old s = true → s = old +:+ pystr.drop (String.length old) s.
Proof.
  revert s. induction old as [|a old IH]; intros s H.
  - by destruct s.
  - destruct s as [|b s]; simpl in H; [done|].
    destruct (Ascii.ascii_dec a b) as [->|]; [|done].
    rewrite app_cons. simpl. f_equal. by apply IH.
Qed.

Lemma drop_empty n : pystr.drop n "" = "".
Proof. by destruct n. Qed.

Lemma replace_from_skip old new k s :
  pystr.replace_from old new k s = pystr.replace_from old new 0 (pystr.drop k s).
Proof.
  revert k. induction s as [|c s IH]; intros k.
  - by rewrite drop_empty.
  - destruct k as [|k]; [done|]. simpl. apply IH.
Qed.

Lemma find_empty sub : sub ≠ "" → pystr.find sub "" = None.
Proof. by destruct sub. Qed.

Lemma replace_from_find old new s n :
  old ≠ "" →
  pystr.find old s = Some n →
  pystr.replace_from old new 0 s =
    pystr.take n s +:+ new +:+
    pystr.replace_from old new 0 (pystr.drop (n + String.length old) s).
Proof.
  intros Hold. revert n. induction s as [|c s IH]; intros n Hfind.
  - by rewrite find_empty in Hfind.
  - cbn [pystr.find] in Hfind. cbn [pystr.replace_from].
    destruct (String.prefix old (String c s)) eqn:Hp.
    + injection Hfind as <-. cbn [pystr.take]. rewrite app_empty.
      f_equal. rewrite replace_from_skip.
      destruct old as [|a old]; [done|].
      simpl. by rewrite Nat.sub_0_r.
    + destruct (pystr.find old s) as [n'|] eqn:Hf; [|done].
      injection Hfind as <-. simpl. rewrite app_cons. f_equal. by apply IH.
Qed.

Lemma find_none_contains sub s :
  pystr.find sub s = None ↔ pystr.contains sub s = false.
Proof.
  induction s as [|c s IH].
  - cbn [pystr.find pystr.contains].
    destruct (String.prefix sub ""); simpl; split; congruence.
  - cbn [pystr.find pystr.contains].
    destruct (String.prefix sub (String c s)); simpl; [split; congruence|].
    rewrite <- IH. destruct (pystr.find sub s); simpl; split; congruence.
Qed.

Lemma find_some_contains sub s n :
  pystr.find sub s = Some n → pystr.contains sub s = true.
Proof.
  intros H. destruct (pystr.contains sub s) eqn:Hc; [done|].
  apply find_none_contains in Hc. congruence.
Qed.

Lemma replace_from_absent old new s :
  pystr.contains old s = false → pystr.replace_from old new 0 s = s.
Proof.
  induction s as [|c s IH]; [done|].
  cbn [pystr.contains pystr.replace_from]. intros H.
  apply orb_false_iff in H as [-> Hc]. f_equal. by apply IH.
Qed.

(** [s.replace(old, new)] cuts [s] at the first occurrence of [old] and
    goes on in the same way after it. *)
Lemma replace_at_first old new s n :
  old ≠ "" →
  pystr.find old s = Some n →
  pystr.replace s old new =
    pystr.take n s +:+ new +:+
    pystr.replace (pystr.drop (n + String.length old) s) old new.
Proof.
  intros Hold Hfind. unfold pystr.replace.
  destruct old as [|a old]; [done|]. by apply replace_from_find.
Qed.

Lemma replace_absent old new s :
  old ≠ "" → pystr.contains old s = false → pystr.replace s old new = s.
Proof.
  intros Hold Hc. unfold pystr.replace.
  destruct old as [|a old]; [done|]. by apply replace_from_absent.
Qed.

Lemma app_assoc_str s1 s2 s3 : (s1 +:+ s2) +:+ s3 = s1 +:+ (s2 +:+ s3).
Proof. induction s1 as [|c s1 IH]; [done|]. by rewrite !app_cons, IH. Qed.

End StringFacts.

(** ** The post-processing step *)

(** X26: what [inject] computes: it is a function of (content, style,
    script) that applies two rules one after the other.  Style rule, only when the style
    text is non-empty: if the content holds [</head>] the style element is
    put immediately before its first occurrence, and the same is done in
    what follows it; otherwise the style element and a newline are put in
    front of the content.  Script rule, on the text that the style rule
    produced: if that text holds [</body>] the script is put immediately
    before its first occurrence, and the same is done in what follows it;
    otherwise the script is appended at the end. *)
Theorem inject_fallback_rules (content : string) (css : option string) (script : string) :
  ∃ styled : string,
    (pystr.truthy_opt css = false → styled = content) ∧
    (∀ css_text, css = Some css_text → pystr.truthy css_text = true →
       (pystr.find "</head>" content = None →
          styled = css_style css_text +:+ nl +:+ content) ∧
       (∀ n, pystr.find "</head>" content = Some n →
          styled = pystr.take n content +:+ (css_style css_text +:+ "</head>") +:+
                   pystr.replace (pystr.drop (n + 7) content) "</head>"
                                 (css_style css_text +:+ "</head>"))) ∧
    (pystr.find "</body>" styled = None →
       inject content css script = styled +:+ script) ∧
    (∀ n, pystr.find "</body>" styled = Some n →
       inject content css script =
         pystr.take n styled +:+ (script +:+ "</body>") +:+
         pystr.replace (pystr.drop (n + 7) styled) "</body>" (script +:+ "</body>")).
Proof.
  unfold inject.
  set (styled :=
         match css with
         | Some css_text =>
             if pystr.truthy css_text then
               if pystr.contains "</head>" content
               then pystr.replace content "</head>"
                      (("<style>" +:+ nl +:+ css_text +:+ nl +:+ "</style>") +:+ "</head>")
               else ("<style>" +:+ nl +:+ css_text +:+ nl +:+ "</style>") +:+ nl +:+ content
             else content
         | None => content
         end).
  exists styled. split; [|split; [|split]].
  - intros Hcss. subst styled. destruct css as [c|]; [|done].
    simpl in Hcss. by rewrite Hcss.
  - intros css_text -> Htruthy. subst styled. rewrite Htruthy. split.
    + intros Hnone. apply find_none_contains in Hnone. by rewrite Hnone.
    + intros n Hn. rewrite (find_some_contains _ _ _ Hn).
      by apply (replace_at_first "</head>").
  - intros Hnone. apply find_none_contains in Hnone. by rewrite Hnone.
  - intros n Hn. rewrite (find_some_contains _ _ _ Hn).
    by apply (replace_at_first "</body>").
Qed.

(** C8 at a failing input: the content has no [</body>], so the script
    is to be appended at the end; the style sheet mentions [</body>] in a
    comment, the test of line 238 is made after the style has been added,
    and the script lands inside the style element instead. *)
Lemma inject_script_not_appended :
  pystr.contains "</body>" "<p>hi</p>" = false ∧
  inject "<p>hi</p>" (Some "/* </body> */") "S" =
    "<style>" +:+ nl +:+ "/* S</body> */" +:+ nl +:+ "</style>" +:+ nl +:+ "<p>hi</p>" ∧
  pystr.endswith (inject "<p>hi</p>" (Some "/* </body> */") "S") "S" = false.
Proof. repeat split; reflexivity. Qed.

(** ** The cache test of [convert_md_to_html] *)

Ltac open_monad :=
  unfold when, try_except, bind, ret, raise, get, modify_py, modify_sys.

Ltac run_monad := open_monad; simpl.

Lemma cached_html_entry md_path m html_path mod_time current :
  html_cache (py m) !! md_path = Some (html_path, mod_time) →
  node_mtime <$> stat (sys m) md_path = Some current →
  cached_html md_path m =
    (Ret (if (current <=? mod_time)%float && os_path_exists (sys m) html_path
          then Some html_path else None), m).
Proof.
  intros Hc Hm. unfold cached_html, get_file_modification_time, os_path_getmtime.
  run_monad. rewrite Hc. simpl.
  destruct (stat (sys m) md_path) as [n|]; [|done].
  injection Hm as <-. simpl.
  by destruct ((node_mtime n <=? mod_time)%float && os_path_exists (sys m) html_path).
Qed.

Lemma cached_html_absent md_path m :
  html_cache (py m) !! md_path = None → cached_html md_path m = (Ret None, m).
Proof. intros Hc. unfold cached_html. run_monad. by rewrite Hc. Qed.

Lemma cached_html_machine md_path m : snd (cached_html md_path m) = m.
Proof.
  unfold cached_html, get_file_modification_time, os_path_getmtime. run_monad.
  destruct (html_cache (py m) !! md_path) as [[h t]|]; [|done]. simpl.
  destruct (stat (sys m) md_path) as [n|]; [|done]. simpl.
  by destruct ((node_mtime n <=? t)%float && os_path_exists (sys m) h).
Qed.

(** ** The conversion *)

Lemma with_fs_same m : mk_machine (py m) (with_fs (fs (sys m)) (sys m)) = m.
Proof. destruct m as [g [f e c t]]. reflexivity. Qed.

Lemma inject_css_and_refresh_effect html_path md_path m :
  ∃ fs', inject_css_and_refresh html_path md_path m =
           (Ret tt, mk_machine (py m) (with_fs fs' (sys m))).
Proof.
  pose proof (with_fs_same m) as Hid.
  unfold inject_css_and_refresh, read_text, write_text. run_monad.
  destruct (stat (sys m) html_path) as [[t|t [s|]]|]; simpl;
    try (exists (fs (sys m)); by rewrite Hid).
  destruct (posixpath.relpath _ _ _); simpl; [|exists (fs (sys m)); by rewrite Hid].
  eexists. reflexivity.
Qed.

Section Coordinator.

Variable run : list string → world → completed.

(** What a conversion that returns a path has done. *)
Lemma render_html_returns md_path m html_path m' :
  render_html run md_path m = (Ret (Some html_path), m') →
  ∃ now mod_time,
    pystr.int_of_float (clock (sys m)) = Some now ∧
    html_path = output_path (config (py m)) md_path now ∧
    html_cache (py m') = <[md_path := (html_path, mod_time)]> (html_cache (py m)) ∧
    modified_files (py m') =
      modified_files (py m) ∖ {[posixpath.abspath (cwd (sys m)) md_path]} ∧
    node_mtime <$> stat (sys m') md_path = Some mod_time ∧
    config (py m') = config (py m) ∧
    css_content (py m') = css_content (py m) ∧
    cwd (sys m') = cwd (sys m).
Proof.
  unfold render_html, subprocess_run, get_file_modification_time,
    os_path_getmtime, os_path_abspath.
  run_monad.
  destruct (pystr.int_of_float (clock (sys m))) as [now|]; simpl; [|done].
  destruct (run _ (sys m)) as [code fs1|]; simpl; [|done].
  destruct (code =? 0)%Z; simpl; [|done].
  match goal with
  | |- context [inject_css_and_refresh ?h ?p ?m1] =>
      destruct (inject_css_and_refresh_effect h p m1) as [fs2 ->]
  end.
  simpl.
  match goal with
  | |- context [stat ?w md_path] => destruct (stat w md_path) as [n|] eqn:Hn
  end; simpl; [|done].
  case_bool_decide as Hin; simpl; intros [= <- <-]; simpl;
    exists now, (node_mtime n); rewrite Hn; repeat split; try done.
  symmetry. apply difference_disjoint_L, disjoint_singleton_r, Hin.
Qed.

End Coordinator.

(** ** The render coordinator *)

Section RenderCoordinator.

Variable run : list string → world → completed.
Variable find_note : config_t → world → string → option string.

(** C1: with an entry [(A, T)] stored for a source whose modification
    time can be read, the lookup returns [A] without converting exactly
    when [A] exists and the source's modification time is at most [T];
    then [convert_md_to_html] returns [A] and changes nothing.  Otherwise
    the lookup answers as for an absent entry and [convert_md_to_html] is
    the conversion. *)
Theorem cache_validity (md_path A : string) (T current : float) (m : machine) :
  html_cache (py m) !! md_path = Some (A, T) →
  node_mtime <$> stat (sys m) md_path = Some current →
  let valid := os_path_exists (sys m) A = true ∧ (current <=? T)%float = true in
  (cached_html md_path m = (Ret (Some A), m) ↔ valid) ∧
  (valid → convert_md_to_html run md_path m = (Ret (Some A), m)) ∧
  (¬ valid →
     cached_html md_path m = (Ret None, m) ∧
     convert_md_to_html run md_path m = render_html run md_path m).
Proof.
  intros Hc Hm valid. subst valid.
  pose proof (cached_html_entry _ _ _ _ _ Hc Hm) as Hlook.
  unfold convert_md_to_html, bind. rewrite Hlook.
  destruct (current <=? T)%float, (os_path_exists (sys m) A); simpl;
    (split; [split|split]); try done; try tauto; try (intros []; done);
    try (intros H; exfalso; apply H; done).
Qed.

(** C2 (amended): a conversion that succeeds, that is a call of
    [convert_md_to_html] that finds no valid cached artifact and returns a
    path, leaves the source not dirty, whatever it was before. *)
Theorem fresh_render_clears_dirty (md_path html_path : string) (m m' : machine) :
  cached_html md_path m = (Ret None, m) →
  convert_md_to_html run md_path m = (Ret (Some html_path), m') →
  is_dirty md_path m' = false.
Proof.
  intros Hmiss. unfold convert_md_to_html, bind. rewrite Hmiss.
  intros Hr. apply render_html_returns in Hr
    as (now & t & _ & _ & _ & Hmod & _ & _ & _ & Hcwd).
  unfold is_dirty. rewrite Hcwd, Hmod.
  apply bool_decide_eq_false, not_elem_of_difference.
  right. by apply elem_of_singleton.
Qed.

(** C10: a valid cached artifact is returned with the whole machine
    unchanged: the entry stays as it was, the modified set is the same,
    and a source that was dirty is still dirty. *)
Theorem cache_hit_mutates_nothing (md_path A : string) (T current : float)
    (m : machine) :
  html_cache (py m) !! md_path = Some (A, T) →
  node_mtime <$> stat (sys m) md_path = Some current →
  (current <=? T)%float = true →
  os_path_exists (sys m) A = true →
  convert_md_to_html run md_path m = (Ret (Some A), m) ∧
  (∀ m', m' = snd (convert_md_to_html run md_path m) →
     html_cache (py m') !! md_path = Some (A, T) ∧
     modified_files (py m') = modified_files (py m) ∧
     (is_dirty md_path m = true → is_dirty md_path m' = true)).
Proof.
  intros Hc Hm Hle Hex.
  assert (Hconv : convert_md_to_html run md_path m = (Ret (Some A), m)).
  { unfold convert_md_to_html, bind.
    rewrite (cached_html_entry _ _ _ _ _ Hc Hm), Hle, Hex. reflexivity. }
  split; [exact Hconv|].
  intros m' ->. rewrite Hconv. simpl. auto.
Qed.

(** C5: when no valid cached artifact is found and the converter exits
    with a non-zero status, [convert_md_to_html] returns [None] and leaves
    every global as it was, so no cache entry is created or replaced and
    the modified set is the same; [serve_note], for a request resolved to
    that source, then aborts with status 500. *)
Theorem conversion_failure_atomic (md_path : string) (m : machine) (now code : Z)
    (fs' : gmap string node) :
  cached_html md_path m = (Ret None, m) →
  pystr.int_of_float (clock (sys m)) = Some now →
  run (pandoc_cmd (config (py m)) (output_path (config (py m)) md_path now) md_path)
      (sys m) = Exited code fs' →
  code ≠ 0%Z →
  ∃ m',
    convert_md_to_html run md_path m = (Ret None, m') ∧
    py m' = py m ∧
    html_cache (py m') = html_cache (py m) ∧
    modified_files (py m') = modified_files (py m) ∧
    (∀ path,
       pystr.truthy path = true →
       os_path_isdir (sys m) (posixpath.join (notes_dir (config (py m))) path) = false →
       find_note (config (py m)) (sys m) path = Some md_path →
       pystr.truthy md_path = true →
       serve_note run find_note path m = (Ret (Abort 500), m')).
Proof.
  intros Hmiss Hnow Hrun Hcode.
  assert (Hconv : convert_md_to_html run md_path m =
                    (Ret None, mk_machine (py m) (with_fs fs' (sys m)))).
  { unfold convert_md_to_html, bind. rewrite Hmiss.
    unfold render_html, subprocess_run. run_monad.
    rewrite Hnow. simpl. rewrite Hrun. simpl.
    apply Z.eqb_neq in Hcode. by rewrite Hcode. }
  eexists. split; [exact Hconv|]. repeat split.
  intros path Hpath Hdir Hfind Hmd.
  unfold serve_note. unfold bind at 1. unfold get.
  rewrite Hpath, Hdir, Hfind. simpl. rewrite Hmd. simpl.
  unfold bind. by rewrite Hconv.
Qed.

End RenderCoordinator.

(** ** The change detector *)

(** C9: a deletion event for a file with a watched extension removes the
    cache entry stored under the event's path, if there is one, and leaves
    the modified set, and every other piece of state, as it was. *)
Theorem deletion_frame (ev : event) (m : machine) :
  is_directory ev = false →
  watched_extension (config (py m)) (src_path ev) = true →
  ∃ m',
    on_deleted ev m = (Ret tt, m') ∧
    html_cache (py m') = delete (src_path ev) (html_cache (py m)) ∧
    modified_files (py m') = modified_files (py m) ∧
    config (py m') = config (py m) ∧
    css_content (py m') = css_content (py m) ∧
    sys m' = sys m.
Proof.
  intros Hdir Hext. unfold on_deleted, drop_cache_entry. open_monad.
  rewrite Hdir. cbn [negb]. rewrite Hext. simpl.
  destruct (html_cache (py m) !! src_path ev) as [entry|] eqn:Hc; simpl.
  - eexists. split; [reflexivity|]. done.
  - exists m. rewrite delete_id by done. done.
Qed.

Section ChangeDetector.

Variable load_dotenv : world → result (gmap string string).
Variable shlex_split : string → option (list string).

(** [load_css_content] never raises: it sets [css_content] to the text of
    the style file, or to [None] when the file is missing or unreadable. *)
Lemma load_css_content_effect m :
  load_css_content m =
    (Ret tt,
     mk_machine
       (with_css_content
          (match css_file (config (py m)) with
           | Some f =>
               if pystr.truthy f then
                 match stat (sys m) f with
                 | Some (File _ (Some text)) => Some text
                 | _ => None
                 end
               else None
           | None => None
           end) (py m))
       (sys m)).
Proof.
  unfold load_css_content, read_text, os_path_isfile. run_monad.
  destruct (css_file (config (py m))) as [f|]; [|done].
  destruct (pystr.truthy f); simpl; [|done].
  destruct (stat (sys m) f) as [[t|t [text|]]|] eqn:Hs; simpl; by rewrite ?Hs.
Qed.

(** C3 (amended): a modification event for the configured style file
    reloads the style and always clears the artifact cache; when the
    file cannot be read the style content becomes [None], it is not kept. *)
Theorem style_reload_clears_cache (ev : event) (m : machine) (f : string) :
  is_directory ev = false →
  css_file (config (py m)) = Some f →
  is_css_file m (src_path ev) = true →
  ∀ m', m' = snd (on_modified load_dotenv shlex_split ev m) →
    html_cache (py m') = ∅ ∧
    css_content (py m') =
      match stat (sys m) f with
      | Some (File _ (Some text)) => Some text
      | _ => None
      end.
Proof.
  intros Hdir Hcss Hev m' ->.
  assert (Htruthy : pystr.truthy f = true).
  { unfold is_css_file in Hev. rewrite Hcss in Hev.
    by apply andb_true_iff in Hev as [? _]. }
  destruct (on_modified load_dotenv shlex_split ev m) as [r m'] eqn:Hrun.
  simpl. revert Hrun.
  unfold on_modified, html_cache_clear, parse_env_pandoc_flags,
    drop_cache_entry, os_path_abspath.
  unfold when at 1. rewrite Hdir. cbn [negb].
  unfold bind at 1. unfold get at 1.
  assert (Hstyle : ∀ g,
    config g = config (py m) →
    is_css_file (mk_machine g (sys m)) (src_path ev) = true).
  { intros g Hg. unfold is_css_file in *. simpl. by rewrite Hg. }
  destruct (watched_extension (config (py m)) (src_path ev)); run_monad;
    [destruct (html_cache (py m) !! src_path ev); simpl|];
    (rewrite ?Hstyle by done; rewrite ?Hev;
     rewrite load_css_content_effect; simpl; rewrite Hcss, Htruthy; simpl;
     destruct (String.eqb _ ".env"); simpl; [|by intros [= <- <-]];
     destruct (load_dotenv _) as [env'|e]; simpl; [|by intros [= <- <-]];
     destruct (env' !! "PANDOC_FLAGS") as [fl|]; simpl; [|by intros [= <- <-]];
     destruct (pystr.truthy fl); simpl; [|by intros [= <- <-]];
     destruct (shlex_split fl); by intros [= <- <-]).
Qed.

(** C7: on a modification event for a [.env] file that is neither a
    watched document nor the style file, a reload that fails, be it
    [load_dotenv] or the splitting of [PANDOC_FLAGS] that raises, leaves
    every global as it was: the converter flags are the previous ones and
    the cache is not cleared.  The cache is cleared whenever the handler
    returns. *)
Theorem settings_reload_failure (ev : event) (m : machine) :
  is_directory ev = false →
  posixpath.basename (src_path ev) = ".env" →
  watched_extension (config (py m)) (src_path ev) = false →
  is_css_file m (src_path ev) = false →
  (∀ e, load_dotenv (sys m) = Raise e →
     on_modified load_dotenv shlex_split ev m = (Raise e, m)) ∧
  (∀ env' flags,
     load_dotenv (sys m) = Ret env' →
     env' !! "PANDOC_FLAGS" = Some flags →
     pystr.truthy flags = true →
     shlex_split flags = None →
     ∃ m', on_modified load_dotenv shlex_split ev m = (Raise ValueError, m') ∧
           py m' = py m) ∧
  (∀ e m', on_modified load_dotenv shlex_split ev m = (Raise e, m') →
     py m' = py m ∧
     pandoc_flags (config (py m')) = pandoc_flags (config (py m)) ∧
     html_cache (py m') = html_cache (py m)) ∧
  (∀ m', on_modified load_dotenv shlex_split ev m = (Ret tt, m') →
     html_cache (py m') = ∅).
Proof.
  intros Hdir Hbase Hext Hcss.
  unfold on_modified, html_cache_clear, parse_env_pandoc_flags.
  open_monad. rewrite Hdir. cbn [negb]. rewrite Hext.
  cbn beta iota. rewrite Hcss, Hbase. simpl.
  split; [|split; [|split]].
  - by intros e ->.
  - intros env' flags -> Henv Hfl Hsplit. simpl.
    rewrite Henv, Hfl, Hsplit. simpl. eexists. by split.
  - intros e m'.
    destruct (load_dotenv (sys m)) as [env'|e0]; simpl;
      [|by intros [= <- <-]].
    destruct (env' !! "PANDOC_FLAGS") as [fl|]; simpl; [|done].
    destruct (pystr.truthy fl); simpl; [|done].
    destruct (shlex_split fl); simpl; [done|]. by intros [= <- <-].
  - intros m'.
    destruct (load_dotenv (sys m)) as [env'|e0]; simpl; [|done].
    destruct (env' !! "PANDOC_FLAGS") as [fl|]; simpl;
      [|by intros [= <-]].
    destruct (pystr.truthy fl); simpl; [|by intros [= <-]].
    destruct (shlex_split fl); simpl; [by intros [= <-]|done].
Qed.

End ChangeDetector.

(** ** Closed instances *)

Import Sample.

(** An instance of [cache_validity]: a valid entry is served. *)
Lemma cache_validity_witness :
  html_cache (py cached) !! "/notes/a.md" = Some ("/tmp/a.html", 100%float) ∧
  node_mtime <$> stat (sys cached) "/notes/a.md" = Some 100%float ∧
  convert_md_to_html pandoc_ok "/notes/a.md" cached = (Ret (Some "/tmp/a.html"), cached).
Proof.
  assert (H1 : html_cache (py cached) !! "/notes/a.md" = Some ("/tmp/a.html", 100%float))
    by (vm_compute; reflexivity).
  assert (H2 : node_mtime <$> stat (sys cached) "/notes/a.md" = Some 100%float)
    by (vm_compute; reflexivity).
  split; [exact H1|]. split; [exact H2|].
  destruct (cache_validity pandoc_ok "/notes/a.md" "/tmp/a.html" 100 100 cached H1 H2)
    as (_ & Hvalid & _).
  apply Hvalid. split; vm_compute; reflexivity.
Defined.

(** C2, as stated, fails: [convert_md_to_html] returns a path, taken from
    the cache, and the source is still dirty afterwards. *)
Lemma cache_hit_leaves_dirty :
  convert_md_to_html pandoc_ok "/notes/a.md" cached_dirty =
    (Ret (Some "/tmp/a.html"), cached_dirty) ∧
  is_dirty "/notes/a.md" cached_dirty = true.
Proof. split; vm_compute; reflexivity. Qed.

(** An instance of [fresh_render_clears_dirty]: a dirty source, converted. *)
Lemma fresh_render_clears_dirty_witness :
  is_dirty "/notes/a.md" dirty = true ∧
  cached_html "/notes/a.md" dirty = (Ret None, dirty) ∧
  fst (convert_md_to_html pandoc_ok "/notes/a.md" dirty) =
    Ret (Some "/tmp/a.md_1700000000.html") ∧
  is_dirty "/notes/a.md" (snd (convert_md_to_html pandoc_ok "/notes/a.md" dirty)) = false.
Proof.
  split; [vm_compute; reflexivity|].
  assert (H1 : cached_html "/notes/a.md" dirty = (Ret None, dirty))
    by (vm_compute; reflexivity).
  split; [exact H1|]. split; [vm_compute; reflexivity|].
  apply (fresh_render_clears_dirty pandoc_ok "/notes/a.md"
           "/tmp/a.md_1700000000.html" dirty _ H1).
  vm_compute; reflexivity.
Defined.

(** C3, as stated, fails: the style file cannot be read, yet the loaded
    style is dropped and the cache is emptied. *)
Lemma style_reload_failure_is_destructive :
  let ev := mk_event false "/etc/style.css" in
  let m' := snd (on_modified (dotenv_sets "-s") split_words ev cached) in
  fst (read_text "/etc/style.css" cached) = Raise (OSError "/etc/style.css") ∧
  css_content (py cached) = Some "body{}" ∧
  html_cache (py cached) !! "/notes/a.md" = Some ("/tmp/a.html", 100%float) ∧
  css_content (py m') = None ∧
  html_cache (py m') !! "/notes/a.md" = None.
Proof. repeat split; vm_compute; reflexivity. Qed.

(** An instance of [style_reload_clears_cache]. *)
Lemma style_reload_clears_cache_witness :
  let ev := mk_event false "/etc/style.css" in
  is_directory ev = false ∧
  css_file (config (py cached)) = Some "/etc/style.css" ∧
  is_css_file cached (src_path ev) = true ∧
  html_cache (py (snd (on_modified (dotenv_sets "-s") split_words ev cached))) = ∅.
Proof.
  split; [reflexivity|]. split; [reflexivity|].
  assert (H3 : is_css_file cached "/etc/style.css" = true)
    by (vm_compute; reflexivity).
  split; [exact H3|].
  apply (style_reload_clears_cache (dotenv_sets "-s") split_words
           (mk_event false "/etc/style.css") cached "/etc/style.css"
           eq_refl eq_refl H3 _ eq_refl).
Defined.

(** An instance of [conversion_failure_atomic]. *)
Lemma conversion_failure_atomic_witness :
  cached_html "/notes/a.md" dirty = (Ret None, dirty) ∧
  pystr.int_of_float (clock (sys dirty)) = Some 1700000000%Z ∧
  ∃ m', convert_md_to_html pandoc_fails "/notes/a.md" dirty = (Ret None, m') ∧
        py m' = py dirty ∧
        serve_note pandoc_fails direct_note "a.md" dirty = (Ret (Abort 500), m').
Proof.
  assert (H1 : cached_html "/notes/a.md" dirty = (Ret None, dirty))
    by (vm_compute; reflexivity).
  assert (H2 : pystr.int_of_float (clock (sys dirty)) = Some 1700000000%Z)
    by (vm_compute; reflexivity).
  split; [exact H1|]. split; [exact H2|].
  destruct (conversion_failure_atomic pandoc_fails direct_note "/notes/a.md" dirty
              1700000000 1 (fs (sys dirty)) H1 H2 eq_refl)
    as (m' & Hconv & Hpy & _ & _ & Hserve); [discriminate|].
  exists m'. split; [exact Hconv|]. split; [exact Hpy|].
  apply Hserve; vm_compute; reflexivity.
Defined.

(** An instance of [settings_reload_failure]: [PANDOC_FLAGS] has an
    unbalanced quote. *)
Lemma settings_reload_failure_witness :
  let ev := mk_event false "/notes/.env" in
  is_directory ev = false ∧
  posixpath.basename (src_path ev) = ".env" ∧
  watched_extension (config (py cached)) (src_path ev) = false ∧
  is_css_file cached (src_path ev) = false ∧
  ∃ m', on_modified (dotenv_sets "-s 'x") split_words ev cached = (Raise ValueError, m') ∧
        py m' = py cached.
Proof.
  split; [reflexivity|]. split; [vm_compute; reflexivity|].
  assert (H3 : watched_extension (config (py cached)) "/notes/.env" = false)
    by (vm_compute; reflexivity).
  assert (H4 : is_css_file cached "/notes/.env" = false)
    by (vm_compute; reflexivity).
  split; [exact H3|]. split; [exact H4|].
  destruct (settings_reload_failure (dotenv_sets "-s 'x") split_words
              (mk_event false "/notes/.env") cached eq_refl eq_refl H3 H4)
    as (_ & Hsplit & _).
  apply (Hsplit _ "-s 'x" eq_refl); vm_compute; reflexivity.
Defined.

(** An instance of [deletion_frame]. *)
Lemma deletion_frame_witness :
  let ev := mk_event false "/notes/a.md" in
  is_directory ev = false ∧
  watched_extension (config (py cached_dirty)) (src_path ev) = true ∧
  ∃ m', on_deleted ev cached_dirty = (Ret tt, m') ∧
        html_cache (py m') !! "/notes/a.md" = None ∧
        modified_files (py m') = modified_files (py cached_dirty).
Proof.
  split; [reflexivity|].
  assert (H2 : watched_extension (config (py cached_dirty)) "/notes/a.md" = true)
    by (vm_compute; reflexivity).
  split; [exact H2|].
  destruct (deletion_frame (mk_event false "/notes/a.md") cached_dirty eq_refl H2)
    as (m' & Hrun & Hcache & Hmod & _).
  exists m'. split; [exact Hrun|]. split; [|exact Hmod].
  rewrite Hcache. apply lookup_delete_eq.
Defined.

(** An instance of [cache_hit_mutates_nothing]: dirty before, dirty after. *)
Lemma cache_hit_mutates_nothing_witness :
  html_cache (py cached_dirty) !! "/notes/a.md" = Some ("/tmp/a.html", 100%float) ∧
  node_mtime <$> stat (sys cached_dirty) "/notes/a.md" = Some 100%float ∧
  (100 <=? 100)%float = true ∧
  os_path_exists (sys cached_dirty) "/tmp/a.html" = true ∧
  convert_md_to_html pandoc_ok "/notes/a.md" cached_dirty =
    (Ret (Some "/tmp/a.html"), cached_dirty).
Proof.
  assert (H1 : html_cache (py cached_dirty) !! "/notes/a.md"
               = Some ("/tmp/a.html", 100%float)) by (vm_compute; reflexivity).
  assert (H2 : node_mtime <$> stat (sys cached_dirty) "/notes/a.md" = Some 100%float)
    by (vm_compute; reflexivity).
  assert (H3 : (100 <=? 100)%float = true) by reflexivity.
  assert (H4 : os_path_exists (sys cached_dirty) "/tmp/a.html" = true)
    by (vm_compute; reflexivity).
  repeat (split; [assumption|]).
  apply (cache_hit_mutates_nothing pandoc_ok "/notes/a.md" "/tmp/a.html" 100 100
           cached_dirty H1 H2 H3 H4).
Defined.

(** C4 at a failing input: two conversions started at two different
    times of the same second get the same output path.  First two sources
    with the same file name in two directories: both cache entries end up
    on one artifact.  Then one source converted, invalidated by a
    modification event and converted again: the earlier artifact's path is
    reused. *)
Lemma same_second_same_output_path :
  let t1 := 1700000000.25%float in
  let t2 := 1700000000.75%float in
  let r1 := convert_md_to_html pandoc_ok "/notes/x/a.md" (at_time t1 fresh) in
  let r2 := convert_md_to_html pandoc_ok "/notes/y/a.md" (at_time t2 (snd r1)) in
  let s1 := convert_md_to_html pandoc_ok "/notes/a.md" (at_time t1 fresh) in
  let s2 := on_modified (dotenv_sets "-s") split_words
                        (mk_event false "/notes/a.md") (snd s1) in
  let s3 := convert_md_to_html pandoc_ok "/notes/a.md" (at_time t2 (snd s2)) in
  (t1 =? t2)%float = false ∧
  fst r1 = Ret (Some "/tmp/a.md_1700000000.html") ∧
  fst r2 = Ret (Some "/tmp/a.md_1700000000.html") ∧
  html_cache (py (snd r2)) !! "/notes/x/a.md" =
    Some ("/tmp/a.md_1700000000.html", 100%float) ∧
  html_cache (py (snd r2)) !! "/notes/y/a.md" =
    Some ("/tmp/a.md_1700000000.html", 100%float) ∧
  fst s1 = Ret (Some "/tmp/a.md_1700000000.html") ∧
  html_cache (py (snd s2)) !! "/notes/a.md" = None ∧
  cached_html "/notes/a.md" (at_time t2 (snd s2)) = (Ret None, at_time t2 (snd s2)) ∧
  fst s3 = Ret (Some "/tmp/a.md_1700000000.html").
Proof. repeat split; vm_compute; reflexivity. Qed.

(** C6 at a failing input: the coordinator stores an entry under the path
    it was given, [/notes/sub/../a.md]; the detector then handles a
    modification of the same file under the name [/notes/a.md].  The
    modified set, keyed by absolute paths, records the change; the cache,
    keyed by the paths as given, keeps the entry: the next request is
    served from it while [check_modified] goes on answering true. *)
Lemma invalidation_misses_uncanonical_key :
  let p := "/notes/sub/../a.md" in
  let q := "/notes/a.md" in
  let m1 := snd (convert_md_to_html pandoc_ok p fresh) in
  let m2 := snd (on_modified (dotenv_sets "-s") split_words (mk_event false q) m1) in
  posixpath.abspath "/" p = posixpath.abspath "/" q ∧
  html_cache (py m1) !! p = Some ("/tmp/a.md_1700000000.html", 100%float) ∧
  fst (on_modified (dotenv_sets "-s") split_words (mk_event false q) m1) = Ret tt ∧
  html_cache (py m2) !! p = Some ("/tmp/a.md_1700000000.html", 100%float) ∧
  modified_files (py m2) = {[q]} ∧
  is_dirty p m2 = true ∧
  convert_md_to_html pandoc_ok p m2 = (Ret (Some "/tmp/a.md_1700000000.html"), m2) ∧
  check_modified "sub/../a.md" m2 = (Ret true, m2).
Proof. repeat split; vm_compute; reflexivity. Qed.

(** * Further properties of the program *)

(** ** The change detector, event by event *)

Lemma is_css_file_globals g1 g2 w file_path :
  config g1 = config g2 →
  is_css_file (mk_machine g1 w) file_path = is_css_file (mk_machine g2 w) file_path.
Proof. intros Hg. unfold is_css_file. simpl. by rewrite Hg. Qed.

Lemma machine_eta m : mk_machine (py m) (sys m) = m.
Proof. by destruct m. Qed.

Section DetectorEvents.

Variable load_dotenv : world → result (gmap string string).
Variable shlex_split : string → option (list string).

(** What [on_modified] can and cannot do to the machine, whatever the
    event and whether or not it raises. *)
Lemma on_modified_effect (ev : event) (m : machine) :
  let m' := snd (on_modified load_dotenv shlex_split ev m) in
  let doc := negb (is_directory ev)
             && watched_extension (config (py m)) (src_path ev) in
  modified_files (py m') =
    (if doc then {[posixpath.abspath (cwd (sys m)) (src_path ev)]} ∪ modified_files (py m)
     else modified_files (py m)) ∧
  (∀ q, html_cache (py m') !! q = None ∨
        html_cache (py m') !! q = html_cache (py m) !! q) ∧
  (doc = true → html_cache (py m') !! src_path ev = None) ∧
  fs (sys m') = fs (sys m) ∧
  cwd (sys m') = cwd (sys m) ∧
  clock (sys m') = clock (sys m) ∧
  notes_dir (config (py m')) = notes_dir (config (py m)) ∧
  temp_dir (config (py m')) = temp_dir (config (py m)) ∧
  default_extensions (config (py m')) = default_extensions (config (py m)) ∧
  css_file (config (py m')) = css_file (config (py m)) ∧
  refresh_interval (config (py m')) = refresh_interval (config (py m)).
Proof.
  destruct (on_modified load_dotenv shlex_split ev m) as [r m'] eqn:Hrun.
  simpl. revert Hrun.
  unfold on_modified, html_cache_clear, parse_env_pandoc_flags,
    drop_cache_entry, os_path_abspath.
  unfold when at 1.
  destruct (is_directory ev); cbn [negb andb];
    [unfold ret; intros [= <- <-]; repeat split; auto; done|].
  unfold bind at 1. unfold get at 1.
  assert (Hlook : ∀ (c : gmap string (string * float)) p q,
             delete p c !! q = None ∨ delete p c !! q = c !! q).
  { intros c p q. destruct (decide (p = q)) as [->|Hne].
    - left. apply lookup_delete_eq.
    - right. by apply lookup_delete_ne. }
  destruct (watched_extension (config (py m)) (src_path ev)); run_monad;
    [destruct (html_cache (py m) !! src_path ev) eqn:Hc; simpl|];
    (match goal with
     | |- context [is_css_file ?m1 ?p] =>
         replace (is_css_file m1 p) with (is_css_file m p)
           by (rewrite <- (machine_eta m) at 1; by apply is_css_file_globals)
     end;
     destruct (is_css_file m (src_path ev)); simpl;
     rewrite ?load_css_content_effect; simpl;
     (destruct (String.eqb _ ".env"); simpl;
      [destruct (load_dotenv _) as [env'|e]; simpl;
       [destruct (env' !! "PANDOC_FLAGS") as [fl|]; simpl;
        [destruct (pystr.truthy fl); simpl;
         [destruct (shlex_split fl); simpl|]|]|]|]);
     intros [= <- <-]; simpl;
     repeat split; try done;
     match goal with
     | |- _ = true → _ =>
         intros _; first [apply lookup_delete_eq | apply lookup_empty | done]
     | |- ∀ q, _ ∨ _ => intros q; auto
     end).
Qed.


(** The machine after a modification event for a watched document that is
    neither the style file nor a [.env] file. *)
Lemma document_modification_step (ev : event) (m : machine) :
  is_directory ev = false →
  watched_extension (config (py m)) (src_path ev) = true →
  is_css_file m (src_path ev) = false →
  posixpath.basename (src_path ev) ≠ ".env" →
  on_modified load_dotenv shlex_split ev m =
    (Ret tt,
     mk_machine
       (with_html_cache (delete (src_path ev) (html_cache (py m)))
          (with_modified_files
             ({[posixpath.abspath (cwd (sys m)) (src_path ev)]} ∪ modified_files (py m))
             (py m)))
       (sys m)).
Proof.
  intros Hdir Hext Hcss Hbase. apply String.eqb_neq in Hbase.
  unfold on_modified, drop_cache_entry, os_path_abspath.
  open_monad. rewrite Hdir. cbn [negb]. rewrite Hext. cbn beta iota.
  destruct (html_cache (py m) !! src_path ev) as [entry|] eqn:Hc;
    cbn beta iota; cbn [py sys with_modified_files html_cache];
    rewrite ?Hc; cbn beta iota;
    match goal with
    | |- context [is_css_file ?m1 ?p] =>
        replace (is_css_file m1 p) with (is_css_file m p)
          by (rewrite <- (machine_eta m) at 1; by apply is_css_file_globals)
    end;
    rewrite Hcss, Hbase; cbn beta iota; [done|].
  rewrite delete_id by done. reflexivity.
Qed.

(** X1: a modification event for a watched document that is neither the
    style file nor a [.env] file adds the absolute form of the event's
    path to the modified set, removes the cache entry stored under the
    event's path, and changes nothing else. *)
Theorem document_modification (ev : event) (m : machine) :
  is_directory ev = false →
  watched_extension (config (py m)) (src_path ev) = true →
  is_css_file m (src_path ev) = false →
  posixpath.basename (src_path ev) ≠ ".env" →
  ∃ m',
    on_modified load_dotenv shlex_split ev m = (Ret tt, m') ∧
    modified_files (py m') =
      {[posixpath.abspath (cwd (sys m)) (src_path ev)]} ∪ modified_files (py m) ∧
    html_cache (py m') = delete (src_path ev) (html_cache (py m)) ∧
    config (py m') = config (py m) ∧
    css_content (py m') = css_content (py m) ∧
    sys m' = sys m.
Proof.
  intros Hdir Hext Hcss Hbase. eexists. split.
  - by apply document_modification_step.
  - done.
Qed.

(** X2: directory events, and events for a path that is not a watched
    document, not the style file and not a [.env] file, change nothing:
    neither [on_modified] nor [on_deleted] nor [on_created] touches the
    machine. *)
Theorem irrelevant_events_ignored (ev : event) (m : machine) :
  is_directory ev = true ∨
  (watched_extension (config (py m)) (src_path ev) = false ∧
   is_css_file m (src_path ev) = false ∧
   posixpath.basename (src_path ev) ≠ ".env") →
  on_modified load_dotenv shlex_split ev m = (Ret tt, m) ∧
  on_deleted ev m = (Ret tt, m) ∧
  on_created ev m = (Ret tt, m).
Proof.
  intros [Hdir|(Hext & Hcss & Hbase)];
    unfold on_modified, on_deleted, on_created; open_monad.
  - by rewrite Hdir.
  - apply String.eqb_neq in Hbase.
    destruct (is_directory ev); cbn [negb]; [done|].
    rewrite Hext. cbn beta iota. by rewrite Hcss, Hbase.
Qed.

(** X3: the detector only invalidates.  Whatever the event, and even when
    the handler raises, [on_modified] removes nothing from the modified set
    and adds no cache entry: every entry present afterwards was there
    before, unchanged. *)
Theorem on_modified_only_invalidates (ev : event) (m : machine) :
  let m' := snd (on_modified load_dotenv shlex_split ev m) in
  modified_files (py m) ⊆ modified_files (py m') ∧
  (∀ q entry, html_cache (py m') !! q = Some entry →
              html_cache (py m) !! q = Some entry).
Proof.
  destruct (on_modified_effect ev m) as (Hmod & Hcache & _).
  simpl in *. split.
  - rewrite Hmod. destruct (_ && _); [apply union_subseteq_r|done].
  - intros q entry Hq. destruct (Hcache q) as [Hn|He]; congruence.
Qed.

(** X4: a document modification is idempotent: a second event for the
    same path finds the path already marked and no entry to remove. *)
Theorem document_modification_idempotent (ev : event) (m : machine) :
  is_directory ev = false →
  watched_extension (config (py m)) (src_path ev) = true →
  is_css_file m (src_path ev) = false →
  posixpath.basename (src_path ev) ≠ ".env" →
  let m1 := snd (on_modified load_dotenv shlex_split ev m) in
  on_modified load_dotenv shlex_split ev m1 = (Ret tt, m1).
Proof.
  intros Hdir Hext Hcss Hbase m1. subst m1.
  rewrite (document_modification_step ev m Hdir Hext Hcss Hbase). simpl.
  rewrite document_modification_step; try done.
  simpl. f_equal. f_equal. unfold with_html_cache, with_modified_files. simpl.
  f_equal.
  - by rewrite delete_delete_eq.
  - by rewrite (assoc_L (∪)), (idemp_L (∪)).
Qed.

End DetectorEvents.

(** The machine after a deletion event. *)
Lemma on_deleted_step (ev : event) (m : machine) :
  on_deleted ev m =
    (Ret tt,
     if negb (is_directory ev) && watched_extension (config (py m)) (src_path ev)
     then mk_machine (with_html_cache (delete (src_path ev) (html_cache (py m))) (py m))
                     (sys m)
     else m).
Proof.
  unfold on_deleted, drop_cache_entry. open_monad.
  destruct (is_directory ev); cbn [negb andb]; [done|]. cbn beta iota.
  destruct (watched_extension (config (py m)) (src_path ev)); [|done].
  destruct (html_cache (py m) !! src_path ev) as [entry|] eqn:Hc; [done|].
  rewrite delete_id by done. unfold with_html_cache.
  by destruct m as [[c h mf css] w].
Qed.

(** X5: invalidation by deletion is idempotent: a second deletion event
    for the same path changes nothing more. *)
Theorem on_deleted_idempotent (ev : event) (m : machine) :
  let m1 := snd (on_deleted ev m) in
  on_deleted ev m1 = (Ret tt, m1).
Proof.
  intros m1. subst m1. rewrite (on_deleted_step ev m). cbn [snd].
  rewrite on_deleted_step.
  destruct (negb (is_directory ev)
            && watched_extension (config (py m)) (src_path ev)) eqn:Hdoc.
  - cbn [py sys config with_html_cache html_cache]. rewrite Hdoc.
    by rewrite delete_delete_eq.
  - by rewrite Hdoc.
Qed.

Section DetectorAndEndpoint.

Variable load_dotenv : world → result (gmap string string).
Variable shlex_split : string → option (list string).
Variable run : list string → world → completed.

(** X6: a modification of a watched document is reported by the
    notification endpoint.  After the event, whatever else the handler did,
    [check_modified] answers true for every request path that names the
    same absolute path under the notes directory, and it leaves the machine
    as it is. *)
Theorem modification_is_reported (ev : event) (m : machine) (rel : string) :
  is_directory ev = false →
  watched_extension (config (py m)) (src_path ev) = true →
  posixpath.abspath (cwd (sys m)) (posixpath.join (notes_dir (config (py m))) rel) =
    posixpath.abspath (cwd (sys m)) (src_path ev) →
  let m1 := snd (on_modified load_dotenv shlex_split ev m) in
  check_modified rel m1 = (Ret true, m1).
Proof.
  intros Hdir Hext Habs m1. subst m1.
  destruct (on_modified_effect load_dotenv shlex_split ev m)
    as (Hmod & _ & _ & _ & Hcwd & _ & Hnotes & _).
  simpl in Hmod, Hcwd, Hnotes. rewrite Hdir, Hext in Hmod. simpl in Hmod.
  unfold check_modified, os_path_abspath. open_monad. cbn beta iota.
  rewrite Hnotes, Hcwd, Habs, Hmod.
  rewrite bool_decide_eq_true_2; [done|].
  apply elem_of_union_l. by apply elem_of_singleton.
Qed.

(** X7: a modification event for a watched document forces the next
    request for the same path to convert: whatever else the handler did,
    no cache entry is left under the event's path, so
    [convert_md_to_html] is the conversion. *)
Theorem modification_forces_conversion (ev : event) (m : machine) :
  is_directory ev = false →
  watched_extension (config (py m)) (src_path ev) = true →
  let m1 := snd (on_modified load_dotenv shlex_split ev m) in
  html_cache (py m1) !! src_path ev = None ∧
  convert_md_to_html run (src_path ev) m1 = render_html run (src_path ev) m1.
Proof.
  intros Hdir Hext m1. subst m1.
  destruct (on_modified_effect load_dotenv shlex_split ev m)
    as (_ & _ & Hgone & _).
  simpl in Hgone. rewrite Hdir, Hext in Hgone. specialize (Hgone eq_refl).
  split; [exact Hgone|].
  unfold convert_md_to_html, bind. by rewrite (cached_html_absent _ _ Hgone).
Qed.

(** X8: a settings reload that goes through.  On a modification event for
    a [.env] file that is neither a watched document nor the style file,
    when [load_dotenv] returns the environment [env'] and [PANDOC_FLAGS]
    can be split, the handler installs [env'], sets the converter flags,
    empties the cache and leaves the modified set and the style alone.  The
    flags are the split value of [PANDOC_FLAGS], or the current flags when
    the variable is unset or empty. *)
Theorem settings_reload_success (ev : event) (m : machine)
    (env' : gmap string string) (flags : list string) :
  is_directory ev = false →
  posixpath.basename (src_path ev) = ".env" →
  watched_extension (config (py m)) (src_path ev) = false →
  is_css_file m (src_path ev) = false →
  load_dotenv (sys m) = Ret env' →
  match env' !! "PANDOC_FLAGS" with
  | Some text => if pystr.truthy text then shlex_split text = Some flags
                 else flags = pandoc_flags (config (py m))
  | None => flags = pandoc_flags (config (py m))
  end →
  ∃ m',
    on_modified load_dotenv shlex_split ev m = (Ret tt, m') ∧
    environ (sys m') = env' ∧
    pandoc_flags (config (py m')) = flags ∧
    html_cache (py m') = ∅ ∧
    modified_files (py m') = modified_files (py m) ∧
    css_content (py m') = css_content (py m) ∧
    fs (sys m') = fs (sys m).
Proof.
  intros Hdir Hbase Hext Hcss Hload Hflags.
  unfold on_modified, html_cache_clear, parse_env_pandoc_flags.
  open_monad. rewrite Hdir. cbn [negb]. rewrite Hext.
  cbn beta iota. rewrite Hcss, Hbase. simpl. rewrite Hload. simpl.
  destruct (env' !! "PANDOC_FLAGS") as [text|]; simpl.
  - destruct (pystr.truthy text); simpl.
    + rewrite Hflags. simpl. eexists. split; [reflexivity|]. done.
    + subst flags. eexists. split; [reflexivity|]. done.
  - subst flags. eexists. split; [reflexivity|]. done.
Qed.

End DetectorAndEndpoint.

(** X9: loading the style never raises and touches nothing but
    [css_content], which becomes the text of the configured style file
    when that is a readable regular file and [None] in every other case
    (no file configured, an empty name, a missing file, a directory, an
    unreadable file). *)
Theorem load_css_content_never_raises (m : machine) :
  ∃ css,
    load_css_content m = (Ret tt, mk_machine (with_css_content css (py m)) (sys m)) ∧
    (∀ text, css = Some text ↔
       ∃ f t, css_file (config (py m)) = Some f ∧ pystr.truthy f = true ∧
              stat (sys m) f = Some (File t (Some text))).
Proof.
  eexists. split; [apply load_css_content_effect|].
  intros text. split.
  - destruct (css_file (config (py m))) as [f|]; [|done].
    destruct (pystr.truthy f) eqn:Hf; [|done].
    destruct (stat (sys m) f) as [[t|t [s|]]|] eqn:Hs; try done.
    intros [= <-]. by exists f, t.
  - intros (f & t & -> & -> & ->). done.
Qed.

(** ** The coordinator, call after call *)

Section CoordinatorCalls.

Variable run : list string → world → completed.
Variable find_note : config_t → world → string → option string.
Variable load_dotenv : world → result (gmap string string).
Variable shlex_split : string → option (list string).

(** How a call of [convert_md_to_html] that returns a path came about:
    from the cache with the machine unchanged, or from the conversion. *)
Lemma convert_returns_cases md_path m html_path m' :
  convert_md_to_html run md_path m = (Ret (Some html_path), m') →
  (cached_html md_path m = (Ret (Some html_path), m) ∧ m' = m) ∨
  (cached_html md_path m = (Ret None, m) ∧
   render_html run md_path m = (Ret (Some html_path), m')).
Proof.
  unfold convert_md_to_html, bind.
  pose proof (cached_html_machine md_path m) as Hm.
  destruct (cached_html md_path m) as [[[h|]|e] m0]; simpl in Hm; subst m0.
  - intros [= <- <-]. by left.
  - intros Hr. by right.
  - done.
Qed.

(** X10: store and lookup round trip.  After a call that returned a
    path, a second call on the resulting machine returns the same path and
    changes nothing, provided the artifact is on disk and the source's
    modification time is a number (not NaN, which no comparison accepts). *)
Theorem repeated_request_is_a_hit (md_path html_path : string) (m m' : machine) :
  convert_md_to_html run md_path m = (Ret (Some html_path), m') →
  os_path_exists (sys m') html_path = true →
  (∀ t, node_mtime <$> stat (sys m') md_path = Some t → (t <=? t)%float = true) →
  convert_md_to_html run md_path m' = (Ret (Some html_path), m').
Proof.
  intros Hconv Hex Hnum.
  destruct (convert_returns_cases _ _ _ _ Hconv) as [[_ ->]|[_ Hr]];
    [exact Hconv|].
  apply render_html_returns in Hr
    as (now & t & _ & _ & Hcache & _ & Hstat & _).
  assert (Hentry : html_cache (py m') !! md_path = Some (html_path, t))
    by (rewrite Hcache; apply lookup_insert_eq).
  unfold convert_md_to_html, bind.
  rewrite (cached_html_entry _ _ _ _ _ Hentry Hstat), (Hnum t Hstat), Hex.
  reflexivity.
Qed.

(** X11: a call that returns a path touches one cache entry and one
    modified flag at most: entries under other paths, flags of other
    absolute paths, [config] and the style are as before. *)
Theorem conversion_frame (md_path html_path : string) (m m' : machine) :
  convert_md_to_html run md_path m = (Ret (Some html_path), m') →
  (∀ q, q ≠ md_path → html_cache (py m') !! q = html_cache (py m) !! q) ∧
  (∀ x, x ≠ posixpath.abspath (cwd (sys m)) md_path →
        x ∈ modified_files (py m') ↔ x ∈ modified_files (py m)) ∧
  modified_files (py m') ⊆ modified_files (py m) ∧
  config (py m') = config (py m) ∧
  css_content (py m') = css_content (py m).
Proof.
  intros Hconv.
  destruct (convert_returns_cases _ _ _ _ Hconv) as [[_ ->]|[_ Hr]]; [done|].
  apply render_html_returns in Hr
    as (now & t & _ & _ & Hcache & Hmod & _ & Hcfg & Hcss & _).
  rewrite Hcache, Hmod. repeat split; try done.
  - intros q Hq. by apply lookup_insert_ne.
  - intros Hx. by apply elem_of_difference in Hx as [? _].
  - intros Hx. apply elem_of_difference. split; [done|].
    by rewrite elem_of_singleton.
  - intros x Hx. by apply elem_of_difference in Hx as [? _].
Qed.

(** X12: a cached source that has disappeared.  When an entry is stored
    for [md_path] and the source file is gone, [convert_md_to_html] raises
    [FileNotFoundError] from the cache test: it neither converts nor
    returns [None], the machine is unchanged, and [serve_note] lets the
    exception through instead of aborting with 404 or 500. *)
Theorem vanished_source_raises (md_path : string) (entry : string * float)
    (m : machine) :
  html_cache (py m) !! md_path = Some entry →
  stat (sys m) md_path = None →
  convert_md_to_html run md_path m = (Raise (FileNotFoundError md_path), m) ∧
  (∀ path,
     pystr.truthy path = true →
     os_path_isdir (sys m) (posixpath.join (notes_dir (config (py m))) path) = false →
     find_note (config (py m)) (sys m) path = Some md_path →
     pystr.truthy md_path = true →
     serve_note run find_note path m = (Raise (FileNotFoundError md_path), m)).
Proof.
  intros Hc Hs.
  assert (Hconv : convert_md_to_html run md_path m
                  = (Raise (FileNotFoundError md_path), m)).
  { unfold convert_md_to_html, cached_html, get_file_modification_time,
      os_path_getmtime. open_monad. cbn beta iota.
    rewrite Hc. destruct entry as [h t]. cbn beta iota. by rewrite Hs. }
  split; [exact Hconv|].
  intros path Hpath Hdir Hfind Hmd.
  unfold serve_note. unfold bind at 1. unfold get.
  rewrite Hpath, Hdir, Hfind. simpl. rewrite Hmd. simpl.
  unfold bind. by rewrite Hconv.
Qed.

(** X13: a converter that cannot be started.  On a cache miss, when the
    executable is not found, the [FileNotFoundError] of [subprocess.run] is
    not caught by the [except CalledProcessError] clause: the call raises,
    it does not return [None], and the machine is unchanged. *)
Theorem missing_converter_raises (md_path : string) (m : machine) (now : Z) :
  cached_html md_path m = (Ret None, m) →
  pystr.int_of_float (clock (sys m)) = Some now →
  run (pandoc_cmd (config (py m)) (output_path (config (py m)) md_path now) md_path)
      (sys m) = ProgramNotFound →
  convert_md_to_html run md_path m = (Raise (FileNotFoundError "pandoc"), m).
Proof.
  intros Hmiss Hnow Hrun.
  unfold convert_md_to_html, bind. rewrite Hmiss.
  unfold render_html, subprocess_run. run_monad.
  rewrite Hnow. simpl. by rewrite Hrun.
Qed.

(** X14: modify, reload, poll.  After a modification event for a watched
    document, a request that the resolver maps to the event's path and that
    [serve_note] answers with a file has converted afresh, and from then on
    [check_modified] answers false for every request path naming the same
    absolute path: the viewer's reload clears the flag the detector set. *)
Theorem reload_after_modification_clears_flag (ev : event) (m m2 : machine)
    (path rel html_path : string) :
  is_directory ev = false →
  watched_extension (config (py m)) (src_path ev) = true →
  let m1 := snd (on_modified load_dotenv shlex_split ev m) in
  os_path_isdir (sys m1) (posixpath.join (notes_dir (config (py m1))) path) = false →
  find_note (config (py m1)) (sys m1) path = Some (src_path ev) →
  serve_note run find_note path m1 = (Ret (SendFile html_path), m2) →
  posixpath.abspath (cwd (sys m1)) (posixpath.join (notes_dir (config (py m1))) rel) =
    posixpath.abspath (cwd (sys m1)) (src_path ev) →
  check_modified rel m1 = (Ret true, m1) ∧
  check_modified rel m2 = (Ret false, m2).
Proof.
  intros Hdir Hext m0 Hnodir Hfind Hserve Habs. subst m0.
  destruct (on_modified_effect load_dotenv shlex_split ev m)
    as (Hmod & _ & Hgone & _ & Hcwd & _).
  set (m1 := snd (on_modified load_dotenv shlex_split ev m)) in *.
  simpl in Hmod, Hgone, Hcwd. rewrite Hdir, Hext in Hmod, Hgone.
  simpl in Hmod. specialize (Hgone eq_refl).
  split.
  - unfold check_modified, os_path_abspath. open_monad. cbn beta iota.
    rewrite Habs, Hmod, Hcwd. rewrite bool_decide_eq_true_2; [done|].
    apply elem_of_union_l. by apply elem_of_singleton.
  - revert Hserve. unfold serve_note. unfold bind at 1. unfold get.
    destruct (pystr.truthy path); cbn [negb]; [|unfold ret; discriminate].
    rewrite Hnodir, Hfind. simpl.
    destruct (pystr.truthy (src_path ev)); simpl; [|unfold ret; discriminate].
    unfold bind.
    destruct (convert_md_to_html run (src_path ev) m1) as [[[h|]|e] m3] eqn:Hconv;
      simpl; try (unfold ret; discriminate).
    destruct (pystr.truthy h); simpl; [|unfold ret; discriminate].
    unfold ret. intros [= <- <-].
    revert Hconv. unfold convert_md_to_html, bind.
    rewrite (cached_html_absent _ _ Hgone). intros Hr.
    apply render_html_returns in Hr
      as (now & t & _ & _ & _ & Hmod3 & _ & Hcfg & _ & Hcwd3).
    unfold check_modified, os_path_abspath. open_monad. cbn beta iota.
    rewrite Hcfg, Hcwd3, Habs, Hmod3.
    rewrite bool_decide_eq_false_2; [done|].
    apply not_elem_of_difference. right. by apply elem_of_singleton.
Qed.

End CoordinatorCalls.

(** ** Paths: suffixes, components and extensions *)

Section PathFacts.

Implicit Types a b s p : string.

Lemma app_empty_r s : s +:+ "" = s.
Proof. induction s as [|c s IH]; [done|]. by rewrite app_cons, IH. Qed.

Lemma take_drop n s : pystr.take n s +:+ pystr.drop n s = s.
Proof.
  revert s. induction n as [|n IH]; intros [|c s]; try done.
  simpl. by rewrite app_cons, IH.
Qed.

Lemma endswith_refl s : pystr.endswith s s = true.
Proof. destruct s; cbn [pystr.endswith]; by rewrite String.eqb_refl. Qed.

Lemma endswith_app_l a s b :
  pystr.endswith s b = true → pystr.endswith (a +:+ s) b = true.
Proof.
  intros H. induction a as [|c a IH]; [done|].
  rewrite app_cons. cbn [pystr.endswith]. rewrite IH. apply orb_true_r.
Qed.

Lemma endswith_app a b : pystr.endswith (a +:+ b) b = true.
Proof. apply endswith_app_l, endswith_refl. Qed.

Lemma join_endswith a b s :
  pystr.endswith b s = true → pystr.endswith (posixpath.join a b) s = true.
Proof.
  intros H. unfold posixpath.join.
  destruct (pystr.startswith b "/"); [done|].
  destruct (negb (pystr.truthy a) || pystr.endswith a "/");
    repeat apply endswith_app_l; done.
Qed.

Lemma splitext_app p :
  (posixpath_more.splitext p).1 +:+ (posixpath_more.splitext p).2 = p.
Proof.
  unfold posixpath_more.splitext.
  destruct (_ && _); simpl; [apply take_drop|apply app_empty_r].
Qed.

Lemma split_nonempty c s : pystr.split c s ≠ [].
Proof.
  destruct s as [|a s]; [done|]. simpl.
  destruct (Ascii.eqb a c); [done|]. by destruct (pystr.split c s).
Qed.

(** [(a + sep + b).split(sep) == a.split(sep) + b.split(sep)] *)
Lemma split_app_sep c a b :
  pystr.split c (a +:+ String c b) = pystr.split c a ++ pystr.split c b.
Proof.
  induction a as [|x a IH].
  - rewrite app_empty. cbn [pystr.split app]. by rewrite Ascii.eqb_refl.
  - rewrite app_cons. cbn [pystr.split]. destruct (Ascii.eqb x c); [by rewrite IH|].
    rewrite IH. pose proof (split_nonempty c a).
    by destruct (pystr.split c a).
Qed.

Lemma last_app_nonempty (l1 l2 : list string) d :
  l2 ≠ [] → List.last (l1 ++ l2) d = List.last l2 d.
Proof.
  intros H. induction l1 as [|x l1 IH]; [done|].
  simpl. rewrite IH. destruct (l1 ++ l2) eqn:E; [|done].
  by apply app_eq_nil in E as [_ ->].
Qed.

Lemma basename_after_sep a b :
  posixpath.basename (a +:+ "/" +:+ b) = posixpath.basename b.
Proof.
  unfold posixpath.basename, posixpath.sep.
  change ("/" +:+ b) with (String "/"%char b).
  rewrite split_app_sep. apply last_app_nonempty, split_nonempty.
Qed.

Lemma endswith_sep_inv a :
  pystr.endswith a "/" = true → ∃ a', a = a' +:+ "/".
Proof.
  induction a as [|c a IH]; [done|]. cbn [pystr.endswith].
  intros H. apply orb_true_iff in H as [H|H].
  - apply String.eqb_eq in H. exists "". by rewrite app_empty.
  - destruct (IH H) as [a' ->]. by exists (String c a').
Qed.

(** The name that [os.path.join] makes from a directory and a file name
    without a slash has that file name as its base name. *)
Lemma basename_join a b :
  pystr.startswith b "/" = false →
  posixpath.basename b = b →
  posixpath.basename (posixpath.join a b) = b.
Proof.
  intros Hb Hbase. unfold posixpath.join. rewrite Hb.
  destruct (negb (pystr.truthy a)) eqn:Ha; simpl.
  - apply negb_true_iff, negb_false_iff, String.eqb_eq in Ha. by subst a.
  - destruct (pystr.endswith a "/") eqn:He.
    + destruct (endswith_sep_inv _ He) as [a' ->].
      by rewrite app_assoc_str, basename_after_sep.
    + by rewrite basename_after_sep.
Qed.

End PathFacts.

(** ** The resolver *)

Section ResolverFacts.

Variable os_walk : world → string → list (string * list string).

Lemma first_with_extension_some w full_path exts found :
  first_with_extension w full_path exts = Some found →
  ∃ ext, ext ∈ exts ∧ found = full_path +:+ ext ∧ os_path_isfile w found = true.
Proof.
  induction exts as [|e exts IH]; [done|]. simpl.
  destruct (os_path_isfile w (full_path +:+ e)) eqn:Hf.
  - intros [= <-]. exists e. split; [apply list_elem_of_here|done].
  - intros H. destruct (IH H) as (ext & Hin & Heq & Hfile).
    exists ext. split; [by apply list_elem_of_further|done].
Qed.

Lemma first_named_some cfg note_path root files found :
  first_named cfg note_path root files = Some found →
  ∃ filename, filename ∈ files ∧ found = posixpath.join root filename ∧
    (posixpath_more.splitext filename).2 ∈ default_extensions cfg ∧
    (posixpath_more.splitext filename).1 = note_path.
Proof.
  induction files as [|f files IH]; [done|]. simpl.
  destruct (posixpath_more.splitext f) as [name ext] eqn:Hsplit.
  destruct (bool_decide (ext ∈ default_extensions cfg) && String.eqb name note_path)
    eqn:Hm.
  - intros [= <-]. apply andb_true_iff in Hm as [Hext Hname].
    apply bool_decide_eq_true in Hext. apply String.eqb_eq in Hname.
    exists f. rewrite Hsplit. split; [apply list_elem_of_here|done].
  - intros H. destruct (IH H) as (filename & Hin & Hrest).
    exists filename. split; [by apply list_elem_of_further|done].
Qed.

Lemma first_in_walk_some cfg note_path walk found :
  first_in_walk cfg note_path walk = Some found →
  ∃ root files filename,
    (root, files) ∈ walk ∧ filename ∈ files ∧
    found = posixpath.join root filename ∧
    (posixpath_more.splitext filename).2 ∈ default_extensions cfg ∧
    (posixpath_more.splitext filename).1 = note_path.
Proof.
  induction walk as [|[root files] walk IH]; [done|]. simpl.
  destruct (first_named cfg note_path root files) as [r|] eqn:Hn.
  - intros [= <-]. destruct (first_named_some _ _ _ _ _ Hn) as (f & Hin & Hrest).
    exists root, files, f. split; [apply list_elem_of_here|done].
  - intros H. destruct (IH H) as (root' & files' & f & Hin & Hrest).
    exists root', files', f. split; [by apply list_elem_of_further|done].
Qed.

(** Where the answer of [find_note] comes from. *)
Lemma find_note_some cfg w note_path found :
  find_note os_walk cfg w note_path = Some found →
  let full_path := posixpath.join (notes_dir cfg) note_path in
  (found = full_path ∧ os_path_isfile w found = true ∧
   (posixpath_more.splitext full_path).2 ∈ default_extensions cfg) ∨
  (∃ ext, ext ∈ default_extensions cfg ∧ found = full_path +:+ ext ∧
          os_path_isfile w found = true) ∨
  (∃ root files filename,
     (root, files) ∈ os_walk w (notes_dir cfg) ∧ filename ∈ files ∧
     found = posixpath.join root filename ∧
     (posixpath_more.splitext filename).2 ∈ default_extensions cfg ∧
     (posixpath_more.splitext filename).1 = note_path).
Proof.
  unfold find_note. cbn zeta.
  destruct (os_path_isfile w _ && bool_decide _) eqn:Hdirect.
  - intros [= <-]. left. apply andb_true_iff in Hdirect as [Hf He].
    by apply bool_decide_eq_true in He.
  - destruct (negb (pystr.truthy _)).
    + destruct (first_with_extension _ _ _) as [r|] eqn:He.
      * intros [= <-]. right. left. by apply first_with_extension_some.
      * intros H. right. right. by apply first_in_walk_some.
    + intros H. right. right. by apply first_in_walk_some.
Qed.

Lemma watched_extension_intro cfg p ext :
  ext ∈ default_extensions cfg → pystr.endswith p ext = true →
  watched_extension cfg p = true.
Proof.
  intros Hin He. unfold watched_extension. apply existsb_exists.
  exists ext. split; [by apply list_elem_of_In|done].
Qed.

(** X15: whatever [find_note] resolves a request to is a path the change
    detector watches: it ends with one of the default extensions, so a
    modification event for it is treated as a document modification.  This
    holds for every enumeration [os.walk] may give. *)
Theorem resolved_notes_are_watched (cfg : config_t) (w : world)
    (note_path found : string) :
  find_note os_walk cfg w note_path = Some found →
  watched_extension cfg found = true.
Proof.
  intros H. apply find_note_some in H.
  destruct H as [(-> & _ & Hext)|[(ext & Hin & -> & _)|
                  (root & files & f & _ & _ & -> & Hext & _)]].
  - apply (watched_extension_intro _ _ _ Hext).
    rewrite <- (splitext_app (posixpath.join _ _)) at 1. apply endswith_app.
  - apply (watched_extension_intro _ _ _ Hin), endswith_app.
  - apply (watched_extension_intro _ _ _ Hext), join_endswith.
    rewrite <- (splitext_app f) at 1. apply endswith_app.
Qed.



End ResolverFacts.

(** ** Settings file and watcher *)

Lemma dotenv_in_parents_result w n dir :
  let found := dotenv_in_parents w n dir in
  (found = ".env" ∨ os_path_isfile w found = true) ∧
  posixpath.basename found = ".env".
Proof.
  revert dir. induction n as [|n IH]; intros dir; simpl; [by split; [left|]|].
  destruct (String.eqb _ dir); [by split; [left|]|].
  destruct (os_path_isfile w _) eqn:Hf; [|apply IH].
  split; [by right|]. by apply basename_join.
Qed.

(** X18: [find_dotenv_file] answers with an existing regular file, or
    with the fallback [.env]; either way the base name of its answer is
    [.env], the very test by which [on_modified] recognises a settings
    file. *)
Theorem find_dotenv_file_result (w : world) :
  (find_dotenv_file w = ".env" ∨ os_path_isfile w (find_dotenv_file w) = true) ∧
  posixpath.basename (find_dotenv_file w) = ".env".
Proof.
  unfold find_dotenv_file. cbn zeta.
  destruct (os_path_isfile w _) eqn:Hf; [|apply dotenv_in_parents_result].
  split; [by right|]. by apply basename_join.
Qed.

(** The list of calls of [observer.schedule], for any three directories. *)
Lemma schedule_shape (notes : string) (css_dir : option string) (env_dir : string) :
  let scheduled :=
    [(notes, true)]
    ++ match css_dir with
       | Some d => if negb (String.eqb d notes) then [(d, false)] else []
       | None => []
       end
    ++ (if bool_decide (Some env_dir ∉ [Some notes; css_dir])
        then [(env_dir, false)] else []) in
  NoDup scheduled.*1 ∧
  (∃ rest, scheduled = (notes, true) :: rest ∧ ∀ d r, (d, r) ∈ rest → r = false) ∧
  env_dir ∈ scheduled.*1 ∧
  (∀ d, css_dir = Some d → d ∈ scheduled.*1).
Proof.
  cbn zeta.
  assert (Hrest1 : ∀ (x : string) d r, (d, r) ∈ [(x, false)] → r = false).
  { intros x d r Hin. apply list_elem_of_singleton in Hin. by injection Hin. }
  assert (Hrest2 : ∀ (x y : string) d r, (d, r) ∈ [(x, false); (y, false)] → r = false).
  { intros x y d r Hin. apply elem_of_cons in Hin as [Hin|Hin]; [by injection Hin|].
    by apply (Hrest1 y d r). }
  destruct css_dir as [c|]; simpl.
  - destruct (String.eqb c notes) eqn:Heq; simpl;
      [apply String.eqb_eq in Heq|apply String.eqb_neq in Heq];
      case_bool_decide as Henv; simpl.
    + subst c. split; [|split; [|split]].
      * apply NoDup_cons. split; [|apply NoDup_singleton].
        intros Hin. apply list_elem_of_singleton in Hin.
        apply Henv. rewrite Hin. apply list_elem_of_here.
      * eexists. split; [done|]. apply Hrest1.
      * apply list_elem_of_further, list_elem_of_here.
      * intros d [= <-]. apply list_elem_of_here.
    + subst c. split; [|split; [|split]].
      * apply NoDup_singleton.
      * eexists. split; [done|]. intros d r Hin. by apply elem_of_nil in Hin.
      * apply elem_of_cons in Henv as [Henv|Henv];
          [|apply list_elem_of_singleton in Henv];
          injection Henv as ->; apply list_elem_of_here.
      * intros d [= <-]. apply list_elem_of_here.
    + split; [|split; [|split]].
      * apply NoDup_cons. split.
        { intros Hin. apply elem_of_cons in Hin as [Hin|Hin]; [done|].
          apply list_elem_of_singleton in Hin.
          apply Henv. rewrite Hin. apply list_elem_of_here. }
        apply NoDup_cons. split; [|apply NoDup_singleton].
        intros Hin. apply list_elem_of_singleton in Hin.
        apply Henv. rewrite Hin. apply list_elem_of_further, list_elem_of_here.
      * eexists. split; [done|]. apply Hrest2.
      * do 2 apply list_elem_of_further. apply list_elem_of_here.
      * intros d [= <-]. apply list_elem_of_further, list_elem_of_here.
    + split; [|split; [|split]].
      * apply NoDup_cons. split; [|apply NoDup_singleton].
        intros Hin. by apply list_elem_of_singleton in Hin.
      * eexists. split; [done|]. apply Hrest1.
      * apply elem_of_cons in Henv as [Henv|Henv].
        -- injection Henv as ->. apply list_elem_of_here.
        -- apply list_elem_of_singleton in Henv. injection Henv as ->.
           apply list_elem_of_further, list_elem_of_here.
      * intros d [= <-]. apply list_elem_of_further, list_elem_of_here.
  - case_bool_decide as Henv; simpl; (split; [|split; [|split]]); try done.
    + apply NoDup_cons. split; [|apply NoDup_singleton].
      intros Hin. apply list_elem_of_singleton in Hin.
      apply Henv. rewrite Hin. apply list_elem_of_here.
    + eexists. split; [done|]. apply Hrest1.
    + apply list_elem_of_further, list_elem_of_here.
    + apply NoDup_singleton.
    + eexists. split; [done|]. intros d r Hin. by apply elem_of_nil in Hin.
    + apply elem_of_cons in Henv as [Henv|Henv].
      * injection Henv as ->. apply list_elem_of_here.
      * by apply list_elem_of_singleton in Henv.
Qed.

(** X19: the watcher never schedules a directory twice; it schedules the
    notes directory first and recursively, every other directory
    non-recursively; and the directories of the style file, when one is
    configured, and of the settings file are both among those scheduled. *)
Theorem start_file_watcher_schedule (cfg : config_t) (w : world) :
  let scheduled := start_file_watcher cfg w in
  let env_dir :=
    posixpath_more.dirname (posixpath.abspath (cwd w) (find_dotenv_file w)) in
  NoDup scheduled.*1 ∧
  (∃ rest, scheduled = (notes_dir cfg, true) :: rest ∧
           ∀ d r, (d, r) ∈ rest → r = false) ∧
  env_dir ∈ scheduled.*1 ∧
  (∀ f, css_file cfg = Some f → pystr.truthy f = true →
        posixpath_more.dirname (posixpath.abspath (cwd w) f) ∈ scheduled.*1).
Proof.
  cbn zeta. unfold start_file_watcher. cbn zeta.
  match goal with
  | |- context [[(notes_dir cfg, true)] ++ match ?c with _ => _ end ++ _] =>
      destruct (schedule_shape (notes_dir cfg) c
                  (posixpath_more.dirname
                     (posixpath.abspath (cwd w) (find_dotenv_file w))))
        as (Hnodup & Hrest & Henv & Hcss)
  end.
  cbn zeta in *. split; [exact Hnodup|]. split; [exact Hrest|].
  split; [exact Henv|].
  intros f Hf Htruthy. apply Hcss. by rewrite Hf; simpl; rewrite Htruthy.
Qed.

(** ** The order of a directory listing *)

Section ListingFacts.

Import listing.

Lemma insert_by_perm {A} (lt : A → A → bool) x l :
  insert_by lt x l ≡ₚ x :: l.
Proof.
  induction l as [|y l IH]; [done|]. simpl.
  destruct (lt x y); [done|]. rewrite IH. apply Permutation_swap.
Qed.

Lemma sort_by_perm {A} (lt : A → A → bool) l : sort_by lt l ≡ₚ l.
Proof.
  unfold sort_by.
  assert (H : ∀ acc, fold_left (λ acc x, insert_by lt x acc) l acc ≡ₚ acc ++ l).
  { induction l as [|x l IH]; intros acc; simpl.
    - by rewrite app_nil_r.
    - rewrite IH, insert_by_perm. simpl. apply Permutation_middle. }
  apply H.
Qed.

Lemma fold_insert_invariant {A} (lt : A → A → bool) (P : list A → Prop) :
  (∀ x l, P l → P (insert_by lt x l)) →
  ∀ l acc, P acc → P (fold_left (λ acc x, insert_by lt x acc) l acc).
Proof.
  intros Hstep l. induction l as [|x l IH]; intros acc Hacc; [done|].
  simpl. apply IH, Hstep, Hacc.
Qed.

Lemma insert_dirs_first {K} (lt : K → K → bool) (key : item → K) x l :
  dirs_first l → dirs_first (insert_by (key_lt lt key) x l).
Proof.
  intros (dirs & files & -> & Hd & Hf).
  induction dirs as [|d dirs IH].
  - simpl. destruct (is_dir x) eqn:Hx.
    + exists [x], files. repeat split; [|by constructor|done].
      destruct files as [|y files]; [done|]. simpl.
      apply Forall_cons in Hf as [Hy _].
      unfold key_lt. by rewrite Hx, Hy.
    + exists [], (insert_by (key_lt lt key) x files).
      repeat split; [constructor|].
      rewrite insert_by_perm. by constructor.
  - apply Forall_cons in Hd as [Hdir Hd]. simpl.
    destruct (key_lt lt key x d) eqn:Hlt.
    + exists (x :: d :: dirs), files. repeat split; [|done].
      repeat constructor; try done.
      unfold key_lt in Hlt. rewrite Hdir in Hlt.
      by destruct (is_dir x).
    + destruct (IH Hd) as (dirs' & files' & Heq & Hd' & Hf').
      exists (d :: dirs'), files'. repeat split; [|by constructor|done].
      simpl. by rewrite Heq.
Qed.

Lemma sort_dirs_first {K} (lt : K → K → bool) (key : item → K) l :
  dirs_first (sort_by (key_lt lt key) l).
Proof.
  unfold sort_by. apply (fold_insert_invariant _ dirs_first).
  - intros x l0. apply insert_dirs_first.
  - exists [], []. by repeat split.
Qed.

Lemma insert_in_order {A} (lt : A → A → bool) x l :
  (∀ a b, lt a b = true → lt b a = false) →
  in_order lt l → in_order lt (insert_by lt x l).
Proof.
  intros Hasym Hl. induction l as [|y l IH]; simpl.
  - by repeat constructor.
  - destruct (lt x y) eqn:Hxy.
    + constructor; [done|]. constructor. by apply Hasym.
    + apply Sorted_inv in Hl as [Hl Hhd]. constructor; [by apply IH|].
      destruct l as [|z l]; simpl.
      * by constructor.
      * destruct (lt x z); constructor; [done|]. by apply HdRel_inv in Hhd.
Qed.

Lemma key_lt_asym {K} (lt : K → K → bool) (key : item → K) :
  (∀ a b, lt a b = true → lt b a = false) →
  ∀ x y, key_lt lt key x y = true → key_lt lt key y x = false.
Proof.
  intros Hasym x y. unfold key_lt.
  destruct (is_dir x), (is_dir y); simpl; try done. all: apply Hasym.
Qed.

Lemma string_ltb_asym a b : String.ltb a b = true → String.ltb b a = false.
Proof.
  unfold String.ltb. rewrite (String.compare_antisym b a).
  by destruct (String.compare a b).
Qed.

Variable lower : string → string.

(** X20: sorting and the direction never lose or duplicate an entry: the
    arranged listing is a permutation of the items, for every value of the
    [sort] and [dir] parameters. *)
Theorem arrange_permutation (sort_param sort_dir : string) (items : list item) :
  arrange lower sort_param sort_dir items ≡ₚ items.
Proof.
  unfold arrange.
  assert (Hsort : sort_items lower sort_param items ≡ₚ items).
  { unfold sort_items. repeat case_match; by rewrite ?sort_by_perm. }
  rewrite <- Hsort at 2. generalize (sort_items lower sort_param items).
  intros l. unfold apply_direction.
  destruct l as [|first l]; [done|].
  destruct (String.eqb sort_dir "desc" && negb (String.eqb (name first) ".."))
    eqn:Hc; [|done].
  apply andb_true_iff in Hc as [_ Hn]. apply negb_true_iff in Hn.
  rewrite Hn. apply reverse_Permutation.
Qed.

(** X21: for each of the three sorts, [name], [title] and [modified],
    the sorted items have every directory before every file. *)
Theorem sorted_items_dirs_first (sort_param : string) (items : list item) :
  sort_param = "name" ∨ sort_param = "title" ∨ sort_param = "modified" →
  dirs_first (sort_items lower sort_param items).
Proof.
  intros [-> | [-> | ->]]; unfold sort_items; simpl; apply sort_dirs_first.
Qed.

(** X22: the sorts by name and by title leave no inversion: of two
    neighbours in the result, the second never has the smaller key
    [(not is_dir, lowered text)]. *)
Theorem sorted_items_in_order (items : list item) :
  in_order (key_lt String.ltb (λ x, lower (name x))) (sort_items lower "name" items) ∧
  in_order (key_lt String.ltb (λ x, lower (title x))) (sort_items lower "title" items).
Proof.
  split; unfold sort_items, sort_by; simpl;
    apply (fold_insert_invariant _ (in_order _));
    try (by constructor);
    intros x l; apply insert_in_order, key_lt_asym; intros a b; apply string_ltb_asym.
Qed.

(** X23: what [dir=desc] does to a sorted listing.  When the first sorted
    item is the parent link [..], the descending order is not applied at
    all and the listing stays as sorted.  Otherwise the sorted list is
    reversed as a whole, so that every file comes before every directory. *)
Theorem descending_listing (sort_param : string) (items : list item)
    (first : item) (rest : list item) :
  sort_param = "name" ∨ sort_param = "title" ∨ sort_param = "modified" →
  sort_items lower sort_param items = first :: rest →
  (name first = ".." → arrange lower sort_param "desc" items = first :: rest) ∧
  (name first ≠ ".." →
     arrange lower sort_param "desc" items = reverse (first :: rest) ∧
     ∃ files dirs,
       arrange lower sort_param "desc" items = files ++ dirs ∧
       Forall (λ x, is_dir x = false) files ∧ Forall (λ x, is_dir x = true) dirs).
Proof.
  intros Hsort Hsorted.
  assert (Hdirs : dirs_first (first :: rest)).
  { rewrite <- Hsorted. destruct Hsort as [-> | [-> | ->]];
      unfold sort_items; simpl; apply sort_dirs_first. }
  unfold arrange. rewrite Hsorted. unfold apply_direction. split.
  - intros ->. simpl. reflexivity.
  - intros Hn. apply String.eqb_neq in Hn. rewrite Hn. simpl.
    split; [done|].
    destruct Hdirs as (dirs & files & -> & Hd & Hf).
    exists (reverse files), (reverse dirs). rewrite reverse_app.
    split; [done|]. by rewrite !Forall_reverse.
Qed.

End ListingFacts.

(** ** The post-processing step, continued *)

Lemma prefix_app sub rest : String.prefix sub (sub +:+ rest) = true.
Proof.
  induction sub as [|c sub IH]; [by destruct rest|].
  rewrite app_cons. simpl. by destruct (Ascii.ascii_dec c c).
Qed.

Lemma contains_prefix sub s : String.prefix sub s = true → pystr.contains sub s = true.
Proof. intros H. destruct s; cbn [pystr.contains]; by rewrite H. Qed.

Lemma contains_app_l a sub s :
  pystr.contains sub s = true → pystr.contains sub (a +:+ s) = true.
Proof.
  intros H. induction a as [|c a IH]; [done|].
  rewrite app_cons. cbn [pystr.contains]. rewrite IH. apply orb_true_r.
Qed.

(** X24: the refresh script always ends up in the page: whatever the
    content and the style, the text that [inject] returns contains the
    script. *)
Theorem inject_carries_script (content : string) (css : option string)
    (script : string) :
  pystr.contains script (inject content css script) = true.
Proof.
  unfold inject.
  match goal with
  | |- context [pystr.contains "</body>" ?t] => generalize t
  end.
  intros styled. destruct (pystr.find "</body>" styled) as [n|] eqn:Hfind.
  - rewrite (find_some_contains _ _ _ Hfind).
    rewrite (replace_at_first "</body>" _ _ n) by done.
    apply contains_app_l. rewrite !app_assoc_str.
    apply contains_prefix, prefix_app.
  - apply find_none_contains in Hfind. rewrite Hfind.
    apply contains_app_l, contains_prefix.
    rewrite <- (app_empty_r script) at 2. apply prefix_app.
Qed.

(** X25: post-processing is best effort.  [inject_css_and_refresh] never
    raises and never touches the Python globals; the only file it can
    change is the artifact; and when the artifact cannot be read (it is
    missing, a directory or unreadable) nothing is written at all. *)
Theorem inject_css_and_refresh_best_effort (html_path md_path : string) (m : machine) :
  ∃ m',
    inject_css_and_refresh html_path md_path m = (Ret tt, m') ∧
    py m' = py m ∧
    (∀ q, q ≠ resolve (sys m) html_path → fs (sys m') !! q = fs (sys m) !! q) ∧
    ((∀ t text, stat (sys m) html_path ≠ Some (File t (Some text))) → m' = m).
Proof.
  unfold inject_css_and_refresh, read_text, write_text. run_monad.
  destruct (stat (sys m) html_path) as [[t|t [s|]]|] eqn:Hs; simpl;
    try (exists m; by repeat split).
  - destruct (posixpath.relpath _ _ _); simpl.
    + eexists. split; [reflexivity|]. simpl. repeat split.
      * intros q Hq. by apply lookup_insert_ne.
      * intros Hno. by destruct (Hno t s).
    + exists m. by repeat split.
Qed.

(** ** Closed instances of the further properties *)

(** An instance of [document_modification]. *)
Lemma document_modification_witness :
  let ev := mk_event false "/notes/a.md" in
  is_directory ev = false ∧
  watched_extension (config (py cached)) (src_path ev) = true ∧
  is_css_file cached (src_path ev) = false ∧
  posixpath.basename (src_path ev) ≠ ".env" ∧
  ∃ m', on_modified (dotenv_sets "-s") split_words ev cached = (Ret tt, m') ∧
        modified_files (py m') = {["/notes/a.md"]} ∪ modified_files (py cached) ∧
        html_cache (py m') !! "/notes/a.md" = None.
Proof.
  cbn zeta.
  assert (H2 : watched_extension (config (py cached)) "/notes/a.md" = true)
    by (vm_compute; reflexivity).
  assert (H3 : is_css_file cached "/notes/a.md" = false) by (vm_compute; reflexivity).
  assert (H4 : posixpath.basename "/notes/a.md" ≠ ".env") by (vm_compute; discriminate).
  repeat (split; [done|]).
  destruct (document_modification (dotenv_sets "-s") split_words
              (mk_event false "/notes/a.md") cached eq_refl H2 H3 H4)
    as (m' & Hrun & Hmod & Hcache & _).
  exists m'. split; [exact Hrun|]. split; [exact Hmod|].
  rewrite Hcache. apply lookup_delete_eq.
Defined.

(** An instance of [irrelevant_events_ignored]: a directory event. *)
Lemma irrelevant_events_ignored_witness :
  let ev := mk_event true "/notes/x" in
  is_directory ev = true ∧
  on_modified (dotenv_sets "-s") split_words ev cached = (Ret tt, cached) ∧
  on_deleted ev cached = (Ret tt, cached).
Proof.
  cbn zeta. split; [reflexivity|].
  destruct (irrelevant_events_ignored (dotenv_sets "-s") split_words
              (mk_event true "/notes/x") cached (or_introl eq_refl))
    as (Hmod & Hdel & _).
  by split.
Defined.

(** An instance of [document_modification_idempotent]. *)
Lemma document_modification_idempotent_witness :
  let ev := mk_event false "/notes/a.md" in
  let m1 := snd (on_modified (dotenv_sets "-s") split_words ev cached) in
  is_directory ev = false ∧
  watched_extension (config (py cached)) (src_path ev) = true ∧
  is_css_file cached (src_path ev) = false ∧
  posixpath.basename (src_path ev) ≠ ".env" ∧
  on_modified (dotenv_sets "-s") split_words ev m1 = (Ret tt, m1).
Proof.
  cbn zeta.
  assert (H2 : watched_extension (config (py cached)) "/notes/a.md" = true)
    by (vm_compute; reflexivity).
  assert (H3 : is_css_file cached "/notes/a.md" = false) by (vm_compute; reflexivity).
  assert (H4 : posixpath.basename "/notes/a.md" ≠ ".env") by (vm_compute; discriminate).
  repeat (split; [done|]).
  exact (document_modification_idempotent (dotenv_sets "-s") split_words
           (mk_event false "/notes/a.md") cached eq_refl H2 H3 H4).
Defined.

(** An instance of [modification_is_reported]. *)
Lemma modification_is_reported_witness :
  let ev := mk_event false "/notes/a.md" in
  let m1 := snd (on_modified (dotenv_sets "-s") split_words ev cached) in
  is_directory ev = false ∧
  watched_extension (config (py cached)) (src_path ev) = true ∧
  posixpath.abspath (cwd (sys cached))
    (posixpath.join (notes_dir (config (py cached))) "sub/../a.md") =
    posixpath.abspath (cwd (sys cached)) (src_path ev) ∧
  check_modified "sub/../a.md" m1 = (Ret true, m1).
Proof.
  cbn zeta.
  assert (H2 : watched_extension (config (py cached)) "/notes/a.md" = true)
    by (vm_compute; reflexivity).
  assert (H3 : posixpath.abspath (cwd (sys cached))
                 (posixpath.join (notes_dir (config (py cached))) "sub/../a.md") =
               posixpath.abspath (cwd (sys cached)) "/notes/a.md")
    by (vm_compute; reflexivity).
  repeat (split; [done|]).
  exact (modification_is_reported (dotenv_sets "-s") split_words
           (mk_event false "/notes/a.md") cached "sub/../a.md" eq_refl H2 H3).
Defined.

(** An instance of [modification_forces_conversion]. *)
Lemma modification_forces_conversion_witness :
  let ev := mk_event false "/notes/a.md" in
  let m1 := snd (on_modified (dotenv_sets "-s") split_words ev cached) in
  is_directory ev = false ∧
  watched_extension (config (py cached)) (src_path ev) = true ∧
  html_cache (py cached) !! "/notes/a.md" = Some ("/tmp/a.html", 100%float) ∧
  html_cache (py m1) !! "/notes/a.md" = None ∧
  convert_md_to_html pandoc_ok "/notes/a.md" m1 = render_html pandoc_ok "/notes/a.md" m1.
Proof.
  cbn zeta.
  assert (H2 : watched_extension (config (py cached)) "/notes/a.md" = true)
    by (vm_compute; reflexivity).
  split; [done|]. split; [done|]. split; [vm_compute; reflexivity|].
  exact (modification_forces_conversion (dotenv_sets "-s") split_words pandoc_ok
           (mk_event false "/notes/a.md") cached eq_refl H2).
Defined.

(** An instance of [settings_reload_success]. *)
Lemma settings_reload_success_witness :
  let ev := mk_event false "/notes/.env" in
  let env' : gmap string string := <["PANDOC_FLAGS" := "-s --toc"]> ∅ in
  is_directory ev = false ∧
  posixpath.basename (src_path ev) = ".env" ∧
  watched_extension (config (py cached)) (src_path ev) = false ∧
  is_css_file cached (src_path ev) = false ∧
  dotenv_sets "-s --toc" (sys cached) = Ret env' ∧
  split_words "-s --toc" = Some ["-s"; "--toc"] ∧
  ∃ m', on_modified (dotenv_sets "-s --toc") split_words ev cached = (Ret tt, m') ∧
        pandoc_flags (config (py m')) = ["-s"; "--toc"] ∧
        html_cache (py m') = ∅.
Proof.
  cbn zeta.
  assert (H2 : posixpath.basename "/notes/.env" = ".env") by (vm_compute; reflexivity).
  assert (H3 : watched_extension (config (py cached)) "/notes/.env" = false)
    by (vm_compute; reflexivity).
  assert (H4 : is_css_file cached "/notes/.env" = false) by (vm_compute; reflexivity).
  assert (H5 : dotenv_sets "-s --toc" (sys cached)
               = Ret (<["PANDOC_FLAGS" := "-s --toc"]> ∅)) by reflexivity.
  assert (H6 : split_words "-s --toc" = Some ["-s"; "--toc"])
    by (vm_compute; reflexivity).
  repeat (split; [done|]).
  destruct (settings_reload_success (dotenv_sets "-s --toc") split_words
              (mk_event false "/notes/.env") cached
              (<["PANDOC_FLAGS" := "-s --toc"]> ∅) ["-s"; "--toc"]
              eq_refl H2 H3 H4 H5)
    as (m' & Hrun & _ & Hflags & Hcache & _).
  { vm_compute. reflexivity. }
  exists m'. by repeat split.
Defined.

(** An instance of [repeated_request_is_a_hit]. *)
Lemma repeated_request_is_a_hit_witness :
  let r := convert_md_to_html pandoc_ok "/notes/a.md" dirty in
  fst r = Ret (Some "/tmp/a.md_1700000000.html") ∧
  os_path_exists (sys (snd r)) "/tmp/a.md_1700000000.html" = true ∧
  node_mtime <$> stat (sys (snd r)) "/notes/a.md" = Some 100%float ∧
  convert_md_to_html pandoc_ok "/notes/a.md" (snd r) =
    (Ret (Some "/tmp/a.md_1700000000.html"), snd r).
Proof.
  cbn zeta. split; [vm_compute; reflexivity|].
  assert (H2 : os_path_exists
                 (sys (snd (convert_md_to_html pandoc_ok "/notes/a.md" dirty)))
                 "/tmp/a.md_1700000000.html" = true) by (vm_compute; reflexivity).
  assert (H3 : node_mtime <$>
                 stat (sys (snd (convert_md_to_html pandoc_ok "/notes/a.md" dirty)))
                      "/notes/a.md" = Some 100%float) by (vm_compute; reflexivity).
  split; [exact H2|]. split; [exact H3|].
  apply (repeated_request_is_a_hit pandoc_ok "/notes/a.md"
           "/tmp/a.md_1700000000.html" dirty).
  - vm_compute. reflexivity.
  - exact H2.
  - intros t Ht. rewrite H3 in Ht. injection Ht as <-. reflexivity.
Defined.

(** An instance of [conversion_frame]. *)
Lemma conversion_frame_witness :
  let r := convert_md_to_html pandoc_ok "/notes/x/a.md" cached_dirty in
  fst r = Ret (Some "/tmp/a.md_1700000000.html") ∧
  html_cache (py (snd r)) !! "/notes/a.md" = Some ("/tmp/a.html", 100%float) ∧
  "/notes/a.md" ∈ modified_files (py (snd r)).
Proof.
  cbn zeta. split; [vm_compute; reflexivity|].
  destruct (conversion_frame pandoc_ok "/notes/x/a.md" "/tmp/a.md_1700000000.html"
              cached_dirty (snd (convert_md_to_html pandoc_ok "/notes/x/a.md" cached_dirty)))
    as (Hcache & Hmod & _).
  { vm_compute. reflexivity. }
  split.
  - rewrite Hcache by discriminate. vm_compute. reflexivity.
  - apply Hmod; [vm_compute; discriminate|]. vm_compute. done.
Defined.

(** An instance of [vanished_source_raises]. *)
Lemma vanished_source_raises_witness :
  html_cache (py Tour.vanished) !! "/notes/gone.md" = Some ("/tmp/a.html", 100%float) ∧
  stat (sys Tour.vanished) "/notes/gone.md" = None ∧
  convert_md_to_html pandoc_ok "/notes/gone.md" Tour.vanished =
    (Raise (FileNotFoundError "/notes/gone.md"), Tour.vanished) ∧
  serve_note pandoc_ok Tour.any_note "gone.md" Tour.vanished =
    (Raise (FileNotFoundError "/notes/gone.md"), Tour.vanished).
Proof.
  assert (H1 : html_cache (py Tour.vanished) !! "/notes/gone.md"
               = Some ("/tmp/a.html", 100%float)) by (vm_compute; reflexivity).
  assert (H2 : stat (sys Tour.vanished) "/notes/gone.md" = None)
    by (vm_compute; reflexivity).
  split; [exact H1|]. split; [exact H2|].
  destruct (vanished_source_raises pandoc_ok Tour.any_note "/notes/gone.md" _
              Tour.vanished H1 H2) as [Hconv Hserve].
  split; [exact Hconv|].
  apply Hserve; vm_compute; reflexivity.
Defined.

(** An instance of [missing_converter_raises]. *)
Lemma missing_converter_raises_witness :
  cached_html "/notes/a.md" dirty = (Ret None, dirty) ∧
  pystr.int_of_float (clock (sys dirty)) = Some 1700000000%Z ∧
  convert_md_to_html Tour.pandoc_missing "/notes/a.md" dirty =
    (Raise (FileNotFoundError "pandoc"), dirty).
Proof.
  assert (H1 : cached_html "/notes/a.md" dirty = (Ret None, dirty))
    by (vm_compute; reflexivity).
  assert (H2 : pystr.int_of_float (clock (sys dirty)) = Some 1700000000%Z)
    by (vm_compute; reflexivity).
  split; [exact H1|]. split; [exact H2|].
  exact (missing_converter_raises Tour.pandoc_missing "/notes/a.md" dirty
           1700000000 H1 H2 eq_refl).
Defined.

(** An instance of [reload_after_modification_clears_flag]. *)
Lemma reload_after_modification_clears_flag_witness :
  let ev := mk_event false "/notes/a.md" in
  let m1 := snd (on_modified (dotenv_sets "-s") split_words ev cached) in
  let m2 := snd (serve_note pandoc_ok direct_note "a.md" m1) in
  is_directory ev = false ∧
  watched_extension (config (py cached)) (src_path ev) = true ∧
  direct_note (config (py m1)) (sys m1) "a.md" = Some "/notes/a.md" ∧
  fst (serve_note pandoc_ok direct_note "a.md" m1) =
    Ret (SendFile "/tmp/a.md_1700000000.html") ∧
  check_modified "a.md" m1 = (Ret true, m1) ∧
  check_modified "a.md" m2 = (Ret false, m2).
Proof.
  cbn zeta.
  assert (H2 : watched_extension (config (py cached)) "/notes/a.md" = true)
    by (vm_compute; reflexivity).
  split; [done|]. split; [exact H2|].
  split; [vm_compute; reflexivity|]. split; [vm_compute; reflexivity|].
  apply (reload_after_modification_clears_flag pandoc_ok direct_note
           (dotenv_sets "-s") split_words (mk_event false "/notes/a.md") cached _
           "a.md" "a.md" "/tmp/a.md_1700000000.html" eq_refl H2);
    vm_compute; reflexivity.
Defined.

(** An instance of [resolved_notes_are_watched]: a note found by the walk. *)
Lemma resolved_notes_are_watched_witness :
  find_note Tour.walk0 cfg0 world0 "b" = Some "/notes/x/b.txt" ∧
  watched_extension cfg0 "/notes/x/b.txt" = true.
Proof.
  assert (H1 : find_note Tour.walk0 cfg0 world0 "b" = Some "/notes/x/b.txt")
    by (vm_compute; reflexivity).
  split; [exact H1|].
  exact (resolved_notes_are_watched Tour.walk0 cfg0 world0 "b" "/notes/x/b.txt" H1).
Defined.


(** An instance of [sorted_items_dirs_first]. *)
Lemma sorted_items_dirs_first_witness :
  "name" = "name" ∧
  listing.dirs_first (listing.sort_items (λ s, s) "name" Tour.items0).
Proof.
  split; [reflexivity|].
  apply (sorted_items_dirs_first (λ s, s) "name" Tour.items0). by left.
Defined.

(** An instance of [descending_listing]: the root listing is reversed. *)
Lemma descending_listing_witness :
  let sorted := listing.sort_items (λ s, s) "name" (List.tl Tour.items0) in
  "name" = "name" ∧
  listing.name <$> sorted = ["zed"; "a.md"; "b.md"] ∧
  listing.arrange (λ s, s) "name" "desc" (List.tl Tour.items0) = reverse sorted.
Proof.
  cbn zeta. split; [reflexivity|]. split; [vm_compute; reflexivity|].
  destruct (descending_listing (λ s, s) "name" (List.tl Tour.items0)
              (listing.mk_item "zed" "/sub/zed" true "zed" 90 "1970-01-01 00:01:30")
              [listing.mk_item "a.md" "/sub/a.md" false "Alpha" 100 "1970-01-01 00:01:40";
               listing.mk_item "b.md" "/sub/b.md" false "Beta" 120 "1970-01-01 00:02:00"])
    as [_ Hrev].
  - by left.
  - vm_compute. reflexivity.
  - destruct Hrev as [Hrev _]; [vm_compute; discriminate|].
    rewrite Hrev. vm_compute. reflexivity.
Defined.

Example sort_items_by_name :
  listing.name <$> listing.sort_items (λ s, s) "name" Tour.items0 =
    [".."; "zed"; "a.md"; "b.md"].
Proof. vm_compute. reflexivity. Qed.

Example arrange_desc_in_subdirectory :
  listing.name <$> listing.arrange (λ s, s) "name" "desc" Tour.items0 =
    [".."; "zed"; "a.md"; "b.md"].
Proof. vm_compute. reflexivity. Qed.

Example arrange_desc_at_root :
  listing.name <$> listing.arrange (λ s, s) "name" "desc" (List.tl Tour.items0) =
    ["b.md"; "a.md"; "zed"].
Proof. vm_compute. reflexivity. Qed.

Example splitext_samples :
  posixpath_more.splitext "/notes/a.md" = ("/notes/a", ".md") ∧
  posixpath_more.splitext "/notes/.bashrc" = ("/notes/.bashrc", "") ∧
  posixpath_more.splitext "/no.tes/a" = ("/no.tes/a", "") ∧
  posixpath_more.splitext "a.tar.gz" = ("a.tar", ".gz") ∧
  posixpath_more.splitext "...a.b" = ("...a", ".b").
Proof. repeat split; reflexivity. Qed.

Example dirname_samples :
  posixpath_more.dirname "/notes/a.md" = "/notes" ∧
  posixpath_more.dirname "/" = "/" ∧
  posixpath_more.dirname "a" = "" ∧
  posixpath_more.dirname "/a/b/" = "/a/b" ∧
  posixpath_more.dirname "a//b" = "a".
Proof. repeat split; reflexivity. Qed.

Example watcher_sample :
  start_file_watcher cfg0 world0 = [("/notes", true); ("/etc", false); ("/", false)].
Proof. vm_compute. reflexivity. Qed.
